(** * Calorie tracker: a model of the request handlers of [index.py]

    The program is a FastAPI application over three SQLAlchemy tables
    ([users], [food_items], [food_logs]).  Each handler is embedded as a
    function in a state-and-exception monad over the committed contents of
    the database; the replies of the text-generation service are inputs of
    the handler that consumes them.

    Conventions of the embedding:
    - a table is the list of its rows in storage order; [.first()] is the
      head of the filtered list and [.all()] is the filtered list;
    - [db.add(x); db.commit(); db.refresh(x)] is one insertion that draws the
      primary key from the table's sequence;
    - [Float] columns and Python floats are IEEE binary64 numbers
      ([PrimFloat.float]); SQL [NULL] and Python [None] are [None]; how a
      [SUM] adds the values of a group is the backend's, and its total is
      an input of the query;
    - primary keys come from the sequences; the foreign keys of the schema
      are not enforced by the store, and no handler checks them. *)

From Stdlib Require Import ZArith String Ascii.
From Stdlib Require Import PrimFloat SpecFloat FloatOps.
From stdpp Require Import gmap strings list sorting.

Local Open Scope Z_scope.

(** ** Dates *)

Module Date.

Record t := mk { year : Z; month : Z; day : Z }.

#[global] Instance eq_dec : EqDecision t.
Proof. solve_decision. Defined.

Definition is_leap (y : Z) : bool :=
  bool_decide (y mod 4 = 0) && (negb (bool_decide (y mod 100 = 0)) || bool_decide (y mod 400 = 0)).

Definition days_in_month (y m : Z) : Z :=
  if bool_decide (m = 2) then (if is_leap y then 29 else 28)
  else if bool_decide (m ∈ [4; 6; 9; 11]) then 30 else 31.

(** The values a [datetime.date] can hold (years 1 to 9999). *)
Definition valid (d : t) : Prop :=
  1 ≤ year d ≤ 9999 ∧ 1 ≤ month d ≤ 12 ∧ 1 ≤ day d ≤ days_in_month (year d) (month d).

#[global] Instance valid_dec d : Decision (valid d).
Proof. unfold valid. apply _. Defined.

Definition digit (n : Z) : ascii := ascii_of_nat (48 + Z.to_nat (n mod 10)).

(** [date.isoformat()]: [YYYY-MM-DD]. *)
Definition isoformat (d : t) : string :=
  String (digit (year d / 1000)) (String (digit (year d / 100))
    (String (digit (year d / 10)) (String (digit (year d))
    (String "-" (String (digit (month d / 10)) (String (digit (month d))
    (String "-" (String (digit (day d / 10)) (String (digit (day d))
     EmptyString))))))))).

End Date.

(** ** Tables *)

Module User.
Record t := mk { id : Z; username : string; password : string }.
End User.

Module FoodItem.
Record t := mk {
  id : Z;
  name : string;
  calories : option float;
  protein : option float;
  carbs : option float;
  fat : option float;
  fiber : option float;
  serving_size_unit : string;
  user_id : Z }.
End FoodItem.

Module FoodLog.
Record t := mk {
  id : Z;
  date : Date.t;
  meal_type : string;
  quantity : float;
  user_id : Z;
  food_item_id : Z }.
End FoodLog.

(** The committed state: the three tables and their primary-key sequences. *)
Record DB := mkDB {
  users : list User.t;
  food_items : list FoodItem.t;
  food_logs : list FoodLog.t;
  users_id_seq : Z;
  food_items_id_seq : Z;
  food_logs_id_seq : Z }.

(** [Base.metadata.create_all] on a fresh store. *)
Definition create_all : DB := mkDB [] [] [] 1 1 1.

(** ** Request and response bodies *)

Module LoginRequest.
Record t := mk { username : string; password : string }.
End LoginRequest.

Module FoodAnalysisRequest.
Record t := mk { description : string; username : string }.
End FoodAnalysisRequest.

Module FoodLogCreate.
Record t := mk { date : Date.t; meal_type : string; quantity : float; food_item_id : Z }.
End FoodLogCreate.

(** A [FoodLog] object as the handlers return it: the row together with its
    [food_item] relationship, which is [None] when no item has that key. *)
Module FoodLogORM.
Record t := mk { row : FoodLog.t; food_item : option FoodItem.t }.
End FoodLogORM.

(** The response models of the log endpoints: every field is required, so a
    [NULL] nutrient or a missing food item does not validate. *)
Module FoodItemInDB.
Record t := mk {
  name : string;
  calories : float;
  protein : float;
  carbs : float;
  fat : float;
  fiber : float;
  serving_size_unit : string;
  id : Z;
  user_id : Z }.

(** Validation of a [FoodItem] row ([orm_mode]). *)
Definition from_orm (i : FoodItem.t) : option t :=
  calories ← FoodItem.calories i;
  protein ← FoodItem.protein i;
  carbs ← FoodItem.carbs i;
  fat ← FoodItem.fat i;
  fiber ← FoodItem.fiber i;
  Some (mk (FoodItem.name i) calories protein carbs fat fiber
          (FoodItem.serving_size_unit i) (FoodItem.id i) (FoodItem.user_id i)).
End FoodItemInDB.

Module FoodLogInDB.
Record t := mk {
  id : Z;
  date : Date.t;
  meal_type : string;
  quantity : float;
  food_item : FoodItemInDB.t }.

(** Validation of a returned [FoodLog] object ([orm_mode]). *)
Definition from_orm (r : FoodLogORM.t) : option t :=
  item ← FoodLogORM.food_item r;
  food_item ← FoodItemInDB.from_orm item;
  Some (mk (FoodLog.id (FoodLogORM.row r)) (FoodLog.date (FoodLogORM.row r))
          (FoodLog.meal_type (FoodLogORM.row r)) (FoodLog.quantity (FoodLogORM.row r))
          food_item).
End FoodLogInDB.

(** [{"status": ..., "message": ...}] *)
Record StatusMessage := mkStatus { status : string; message : string }.

(** ** The handler monad *)

Inductive exn :=
  | HTTPException (status_code : Z) (detail : string)
  | OverflowError.

Inductive outcome (A : Type) :=
  | Return (a : A)
  | Raise (e : exn).
Arguments Return {A} a.
Arguments Raise {A} e.

Definition handler (A : Type) : Type := DB → outcome A * DB.

Definition ret {A} (a : A) : handler A := λ db, (Return a, db).

Definition bind {A B} (m : handler A) (k : A → handler B) : handler B :=
  λ db, match m db with
        | (Return a, db') => k a db'
        | (Raise e, db') => (Raise e, db')
        end.

Definition raise {A} (e : exn) : handler A := λ db, (Raise e, db).

Notation "'let!' x ':=' m 'in' k" := (bind m (λ x, k))
  (at level 10, x name, m at level 100, k at level 200).

(** [db.query(T).filter(P).first()] and [db.query(T).filter(P).all()]. *)
Definition query_first {A} (table : DB → list A) (P : A → Prop) `{∀ x, Decision (P x)}
  : handler (option A) := λ db, (Return (head (filter P (table db))), db).

Definition query_all {A} (table : DB → list A) (P : A → Prop) `{∀ x, Decision (P x)}
  : handler (list A) := λ db, (Return (filter P (table db)), db).

(** Insertions: add, commit, refresh. *)
Definition add_user (username password : string) : handler User.t := λ db,
  let user := User.mk (users_id_seq db) username password in
  (Return user,
   mkDB (users db ++ [user]) (food_items db) (food_logs db)
        (users_id_seq db + 1) (food_items_id_seq db) (food_logs_id_seq db)).

Definition add_food_item (new_item : Z → FoodItem.t) : handler FoodItem.t := λ db,
  let item := new_item (food_items_id_seq db) in
  (Return item,
   mkDB (users db) (food_items db ++ [item]) (food_logs db)
        (users_id_seq db) (food_items_id_seq db + 1) (food_logs_id_seq db)).

Definition add_food_log (db_log : Z → FoodLog.t) : handler FoodLog.t := λ db,
  let log := db_log (food_logs_id_seq db) in
  (Return log,
   mkDB (users db) (food_items db) (food_logs db ++ [log])
        (users_id_seq db) (food_items_id_seq db) (food_logs_id_seq db + 1)).

(** [db.delete(x); db.commit()]: the row is removed by primary key. *)
Definition delete_food_log (x : FoodLog.t) : handler () := λ db,
  (Return (),
   mkDB (users db) (food_items db)
        (filter (λ l, FoodLog.id l ≠ FoodLog.id x) (food_logs db))
        (users_id_seq db) (food_items_id_seq db) (food_logs_id_seq db)).

(** The many-to-one relationship [FoodLog.food_item], loaded by key. *)
Definition load_food_item (log : FoodLog.t) : handler FoodLogORM.t :=
  let! item := query_first food_items (λ i, FoodItem.id i = FoodLog.food_item_id log) in
  ret (FoodLogORM.mk log item).

Fixpoint load_food_items (logs : list FoodLog.t) : handler (list FoodLogORM.t) :=
  match logs with
  | [] => ret []
  | log :: logs =>
      let! x := load_food_item log in
      let! xs := load_food_items logs in
      ret (x :: xs)
  end.

(** ** POST /api/login *)

Definition login (request : LoginRequest.t) : handler StatusMessage :=
  let! user := query_first users (λ u, User.username u = LoginRequest.username request) in
  match user with
  | None =>
      let! user := add_user (LoginRequest.username request) (LoginRequest.password request) in
      ret (mkStatus "success" "User created.")
  | Some user =>
      if decide (User.password user ≠ LoginRequest.password request)
      then raise (HTTPException 401 "Incorrect password")
      else ret (mkStatus "success" "Login successful.")
  end.

(** ** POST /api/analyze-and-find-food *)

(** A JSON number as [json.loads] returns it. *)
Inductive pynum :=
  | PyInt (z : Z)
  | PyFloat (f : float).

(** The double nearest to an integer (ties to even); infinite when the
    integer is beyond the range of doubles. *)
Definition float_of_Z (z : Z) : float :=
  SF2Prim (binary_normalize prec emax z 0 false).

(** [float(x)] on a number: an integer too large for a double raises. *)
Definition py_float (x : pynum) : outcome float :=
  match x with
  | PyFloat f => Return f
  | PyInt z =>
      let f := float_of_Z z in
      if is_infinity f then Raise OverflowError else Return f
  end.

Definition lift {A} (o : outcome A) : handler A := λ db, (o, db).

(** [s.replace(old, new)]: occurrences of [old] are replaced from the left,
    without overlap.  [skip] counts the characters of a match still to drop. *)
Fixpoint replace_from (old new : string) (skip : nat) (s : string) : string :=
  match s with
  | EmptyString => EmptyString
  | String c s' =>
      match skip with
      | S k => replace_from old new k s'
      | O =>
          if String.prefix old s
          then new +:+ replace_from old new (String.length old - 1) s'
          else String c (replace_from old new 0 s')
      end
  end.

Fixpoint insert_after_each (new s : string) : string :=
  match s with
  | EmptyString => EmptyString
  | String c s' => String c (new +:+ insert_after_each new s')
  end.

Definition str_replace (s old new : string) : string :=
  match old with
  | EmptyString => new +:+ insert_after_each new s
  | _ => replace_from old new 0 s
  end.

(** Lines 161-167: the quantity and serving label for a unit. *)
Definition normalize (quantity : float) (unit : string) : float * string :=
  if decide (unit ∈ ["ml"; "g"; "gram"; "grams"])
  then ((quantity / 100)%float,
        "100" +:+ str_replace (str_replace unit "gram" "g") "s" "")
  else (quantity, unit).

(** The object decoded from the reply to the parsing prompt, with values of
    the JSON types the prompt asks for: a number and two strings.  A key the
    reply lacks is [None]. *)
Module ParsedResult.
Record t := mk { quantity : option pynum; unit : option string; item_name : option string }.
End ParsedResult.

(** The object decoded from the reply to the nutrition prompt: a string and
    five numbers, each number as the double its column stores.  A key the
    reply lacks is [None], a JSON [null] nutrient is [Some None]. *)
Module NutritionData.
Record t := mk {
  name : option string;
  calories : option (option float);
  protein : option (option float);
  carbs : option (option float);
  fat : option (option float);
  fiber : option (option float) }.
End NutritionData.

(** [{"item": ..., "quantity": ..., "new": ...}] *)
Module Analysis.
Record t := mk { item : FoodItem.t; quantity : float; new : bool }.
End Analysis.

Section AnalyzeAndFindFood.

(** [str.lower] of the Python runtime. *)
Variable str_lower : string → string.

(** Each reply is either the decoded object ([inr]) or the text of the
    exception raised inside the [try] block ([inl]): the service failing,
    text that is not JSON, a reply that is not an object, a unit or a name
    that is not a string.  The quantity is converted after the [try] block,
    so an exception of [float] is not caught. *)
Definition analyze_and_find_food (request : FoodAnalysisRequest.t)
    (parsing_reply : string + ParsedResult.t)
    (nutrition_reply : string + NutritionData.t) : handler Analysis.t :=
  let! user := query_first users
                 (λ u, User.username u = FoodAnalysisRequest.username request) in
  match user with
  | None => raise (HTTPException 404 "User not found")
  | Some user =>
      match parsing_reply with
      | inl e => raise (HTTPException 500 ("AI parsing failed: " +:+ e))
      | inr parsed_result =>
          let quantity := default (PyFloat 1) (ParsedResult.quantity parsed_result) in
          let unit := str_lower (default "unit" (ParsedResult.unit parsed_result)) in
          let item_name_raw := str_lower (default "" (ParsedResult.item_name parsed_result)) in
          let! quantity := lift (py_float quantity) in
          let normalized_quantity := (normalize quantity unit).1 in
          let serving_size_unit := (normalize quantity unit).2 in
          let! existing_item :=
            query_first food_items
              (λ i, FoodItem.user_id i = User.id user ∧ FoodItem.name i = item_name_raw) in
          match existing_item with
          | Some existing_item =>
              ret (Analysis.mk existing_item normalized_quantity false)
          | None =>
              match nutrition_reply with
              | inl e => raise (HTTPException 500 ("AI nutrition fetch failed: " +:+ e))
              | inr nutrition_data =>
                  let! new_item :=
                    add_food_item (λ id,
                      FoodItem.mk id
                        (default item_name_raw (NutritionData.name nutrition_data))
                        (default (Some 0%float) (NutritionData.calories nutrition_data))
                        (default (Some 0%float) (NutritionData.protein nutrition_data))
                        (default (Some 0%float) (NutritionData.carbs nutrition_data))
                        (default (Some 0%float) (NutritionData.fat nutrition_data))
                        (default (Some 0%float) (NutritionData.fiber nutrition_data))
                        serving_size_unit
                        (User.id user)) in
                  ret (Analysis.mk new_item normalized_quantity true)
              end
          end
      end
  end.

End AnalyzeAndFindFood.

(** Lower-casing of ASCII text, the instance used on concrete inputs. *)
Definition ascii_lower (c : ascii) : ascii :=
  let n := nat_of_ascii c in
  if ((65 <=? n) && (n <=? 90))%nat then ascii_of_nat (n + 32) else c.

Fixpoint lower (s : string) : string :=
  match s with
  | EmptyString => EmptyString
  | String c s' => String (ascii_lower c) (lower s')
  end.

(** ** GET /api/food-items/{username} *)

(** Lexicographic order on strings, character codes compared as numbers
    (the order of [ORDER BY] under a binary collation). *)
Fixpoint str_leb (s t : string) : bool :=
  match s, t with
  | EmptyString, _ => true
  | String _ _, EmptyString => false
  | String a s', String b t' =>
      if (nat_of_ascii a <? nat_of_ascii b)%nat then true
      else if (nat_of_ascii b <? nat_of_ascii a)%nat then false
      else str_leb s' t'
  end.

Definition name_le (i j : FoodItem.t) : Prop :=
  str_leb (FoodItem.name i) (FoodItem.name j).

(** [db.query(T).filter(P).order_by(R).all()] *)
Definition query_all_order_by {A} (table : DB → list A) (P : A → Prop)
    `{∀ x, Decision (P x)} (R : relation A) `{∀ x y, Decision (R x y)}
  : handler (list A) := λ db, (Return (merge_sort R (filter P (table db))), db).

Definition get_user_food_items (username : string) : handler (list FoodItem.t) :=
  let! user := query_first users (λ u, User.username u = username) in
  match user with
  | None => raise (HTTPException 404 "User not found")
  | Some user =>
      query_all_order_by food_items (λ i, FoodItem.user_id i = User.id user) name_le
  end.

(** ** POST /api/log/{username} *)

Definition create_food_log (username : string) (log : FoodLogCreate.t)
  : handler FoodLogORM.t :=
  let! user := query_first users (λ u, User.username u = username) in
  match user with
  | None => raise (HTTPException 404 "User not found")
  | Some user =>
      let! db_log :=
        add_food_log (λ id,
          FoodLog.mk id (FoodLogCreate.date log) (FoodLogCreate.meal_type log)
            (FoodLogCreate.quantity log) (User.id user) (FoodLogCreate.food_item_id log)) in
      load_food_item db_log
  end.

(** ** GET /api/log/{username}/{log_date} *)

Definition get_logs_for_date (username : string) (log_date : Date.t)
  : handler (list FoodLogORM.t) :=
  let! user := query_first users (λ u, User.username u = username) in
  match user with
  | None => raise (HTTPException 404 "User not found")
  | Some user =>
      let! logs := query_all food_logs
                     (λ l, FoodLog.user_id l = User.id user ∧ FoodLog.date l = log_date) in
      load_food_items logs
  end.

(** ** DELETE /api/log/{log_id} *)

Definition delete_log (log_id : Z) : handler StatusMessage :=
  let! log_to_delete := query_first food_logs (λ l, FoodLog.id l = log_id) in
  match log_to_delete with
  | None => raise (HTTPException 404 "Log not found")
  | Some log_to_delete =>
      let! _ := delete_food_log log_to_delete in
      ret (mkStatus "success" "Log deleted")
  end.

(** ** GET /api/stats/{username}/calendar-data *)

(** SQL arithmetic on nullable doubles: a product with [NULL] is [NULL]. *)
Definition sql_mul (a b : option float) : option float :=
  match a, b with
  | Some x, Some y => Some (x * y)%float
  | _, _ => None
  end.

(** The total of a group of values: none for an empty group, otherwise what
    [sum] makes of the values. *)
Definition total_of (sum : list float → float) (xs : list float) : option float :=
  match xs with
  | [] => None
  | _ :: _ => Some (sum xs)
  end.

(** [func.sum]: [SUM] skips [NULL]s and is [NULL] when nothing is left.  In
    which order and by which algorithm the values that are left are added is
    not fixed by the query: [sum] is what the backend makes of them, given
    here in the storage order of their rows. *)
Definition sql_sum (sum : list float → float) (vs : list (option float)) : option float :=
  total_of sum (omap id vs).

(** [select_from(FoodLog).join(FoodItem, FoodLog.food_item_id == FoodItem.id)] *)
Definition join (logs : list FoodLog.t) (items : list FoodItem.t)
  : list (FoodLog.t * FoodItem.t) :=
  l ← logs; i ← filter (λ i, FoodLog.food_item_id l = FoodItem.id i) items; [(l, i)].

(** The joined rows of a user ([filter(FoodLog.user_id == user.id)]). *)
Definition user_rows (db : DB) (user_id : Z) : list (FoodLog.t * FoodItem.t) :=
  filter (λ r, FoodLog.user_id r.1 = user_id) (join (food_logs db) (food_items db)).

(** [func.sum(FoodLog.quantity * FoodItem.calories)] over the group of a
    date; [backend_sum d] is the backend's summation for that group. *)
Definition total_calories (backend_sum : Date.t → list float → float)
    (rows : list (FoodLog.t * FoodItem.t)) (d : Date.t) : option float :=
  sql_sum (backend_sum d)
          ((λ r, sql_mul (Some (FoodLog.quantity r.1)) (FoodItem.calories r.2))
             <$> filter (λ r, FoodLog.date r.1 = d) rows).

(** The aggregate query: one row [(log_date, total_calories)] per distinct
    date of the joined rows of the user. *)
Definition calories_per_day (backend_sum : Date.t → list float → float) (user : User.t)
  : handler (list (Date.t * option float)) := λ db,
  let rows := user_rows db (User.id user) in
  (Return ((λ d, (d, total_calories backend_sum rows d))
             <$> remove_dups ((λ r, FoodLog.date r.1) <$> rows)), db).

(** The dictionary comprehension: later keys overwrite earlier ones. *)
Definition calendar_dict (rows : list (Date.t * option float)) : gmap string float :=
  foldl (λ m r, match r.2 with
                | Some total_calories => <[Date.isoformat r.1 := total_calories]> m
                | None => m
                end) ∅ rows.

(** The two inputs stand for the backend: [query_error] is the text of an
    exception raised while the query runs ([None] when it runs through), and
    [backend_sum d values] is the total its [SUM] returns for the group of
    date [d], whose values that are not [NULL] are [values]. *)
Definition get_calendar_data (username : string) (query_error : option string)
    (backend_sum : Date.t → list float → float) : handler (gmap string float) :=
  let! user := query_first users (λ u, User.username u = username) in
  match user with
  | None => raise (HTTPException 404 "User not found")
  | Some user =>
      match query_error with
      | Some e => raise (HTTPException 500 ("Error fetching calendar data: " +:+ e))
      | None =>
          let! rows := calories_per_day backend_sum user in
          ret (calendar_dict rows)
      end
  end.

(** ** Consistency of a store *)

(** Primary keys are unique and below their sequence, usernames are unique,
    and every stored date is a date. *)
Record wf (db : DB) : Prop := mk_wf {
  wf_users_key : NoDup (User.id <$> users db);
  wf_items_key : NoDup (FoodItem.id <$> food_items db);
  wf_logs_key : NoDup (FoodLog.id <$> food_logs db);
  wf_users_seq : ∀ u, u ∈ users db → User.id u < users_id_seq db;
  wf_items_seq : ∀ i, i ∈ food_items db → FoodItem.id i < food_items_id_seq db;
  wf_logs_seq : ∀ l, l ∈ food_logs db → FoodLog.id l < food_logs_id_seq db;
  wf_usernames : NoDup (User.username <$> users db);
  wf_dates : ∀ l, l ∈ food_logs db → Date.valid (FoodLog.date l) }.

(** ** Histories *)

(** The requests that can write to the store. *)
Inductive request :=
  | Login (r : LoginRequest.t)
  | AnalyzeAndFindFood (r : FoodAnalysisRequest.t)
      (parsing_reply : string + ParsedResult.t)
      (nutrition_reply : string + NutritionData.t)
  | CreateFoodLog (username : string) (log : FoodLogCreate.t)
  | DeleteLog (log_id : Z).

(** The store after a request has been served. *)
Definition serve (str_lower : string → string) (r : request) (db : DB) : DB :=
  match r with
  | Login r => (login r db).2
  | AnalyzeAndFindFood r parsing_reply nutrition_reply =>
      (analyze_and_find_food str_lower r parsing_reply nutrition_reply db).2
  | CreateFoodLog username log => (create_food_log username log db).2
  | DeleteLog log_id => (delete_log log_id db).2
  end.

(** Request validation lets only dates through in a [FoodLogCreate]. *)
Definition validated (r : request) : Prop :=
  match r with
  | CreateFoodLog _ log => Date.valid (FoodLogCreate.date log)
  | _ => True
  end.

(** The stores that a sequence of requests produces from the empty one. *)
Inductive reachable (str_lower : string → string) : DB → Prop :=
  | reachable_create_all : reachable str_lower create_all
  | reachable_serve r db :
      reachable str_lower db → validated r → reachable str_lower (serve str_lower r db).

(** ** The calendar in the words of the specification *)

(** The calories of the item a log refers to, when that item exists and has
    a calorie value. *)
Definition referenced_calories (db : DB) (l : FoodLog.t) : option float :=
  head (filter (λ i, FoodItem.id i = FoodLog.food_item_id l) (food_items db))
    ≫= FoodItem.calories.

(** The values of a user on a date: for each log of that user on that date
    whose item exists with a calorie value, in storage order, its quantity
    times the calories of the item. *)
Definition day_products (db : DB) (user_id : Z) (d : Date.t) : list float :=
  omap (λ l, (λ c, FoodLog.quantity l * c)%float <$> referenced_calories db l)
    (filter (λ l, FoodLog.user_id l = user_id ∧ FoodLog.date l = d) (food_logs db)).

(** The total of a user on a date: the backend's sum of those values, and
    none when there is no value. *)
Definition day_total (backend_sum : Date.t → list float → float)
    (db : DB) (user_id : Z) (d : Date.t) : option float :=
  total_of (backend_sum d) (day_products db user_id d).

(** ** Stores used as concrete inputs *)

(** A summation a backend may use: the values added one by one, first to
    last. *)
Definition sum_in_order (d : Date.t) (values : list float) : float :=
  match values with
  | [] => 0%float
  | x :: xs => foldl PrimFloat.add x xs
  end.

(** Another one: the values added one by one, last to first. *)
Definition sum_in_reverse (d : Date.t) (values : list float) : float :=
  sum_in_order d (reverse values).

Definition ann : LoginRequest.t := LoginRequest.mk "ann" "pw".

(** The store after Ann's first login. *)
Definition ann_db : DB := (login ann create_all).2.

Definition day : Date.t := Date.mk 2024 3 9.

Definition milk_request : FoodAnalysisRequest.t :=
  FoodAnalysisRequest.mk "500ml of milk" "ann".

Definition milk_parsed : ParsedResult.t :=
  ParsedResult.mk (Some (PyInt 500)) (Some "ml") (Some "milk").

(** A nutrition reply that keeps the name it was asked about, and one that
    returns it capitalised. *)
Definition milk_nutrition : NutritionData.t :=
  NutritionData.mk (Some "milk") (Some (Some 5%float)) (Some (Some 3.5%float))
    (Some (Some 5%float)) (Some (Some 1%float)) None.

Definition Milk_nutrition : NutritionData.t :=
  NutritionData.mk (Some "Milk") (Some (Some 5%float)) (Some (Some 3.5%float))
    (Some (Some 5%float)) (Some (Some 1%float)) None.

(** Ann's store after the analysis of "500ml of milk" created item 1. *)
Definition milk_db : DB :=
  (analyze_and_find_food lower milk_request (inr milk_parsed) (inr milk_nutrition) ann_db).2.

(** Ann's store after "An apple" created item 2 as well; the replies leave
    out the quantity, the unit and the name. *)
Definition pantry_db : DB :=
  (analyze_and_find_food lower (FoodAnalysisRequest.mk "An apple" "ann")
     (inr (ParsedResult.mk None None (Some "Apple")))
     (inr (NutritionData.mk None (Some (Some 95%float)) None None None None))
     milk_db).2.

(** Two logs of item 1 on [day], of 2 and 3 servings. *)
Definition logged_db : DB :=
  (create_food_log "ann" (FoodLogCreate.mk day "lunch" 3 1)
     (create_food_log "ann" (FoodLogCreate.mk day "breakfast" 2 1) milk_db).2).2.

(** Ann's store after a nutrition reply with ["calories": null] created item
    1, and a log of one serving of it on [day]. *)
Definition null_db : DB :=
  (create_food_log "ann" (FoodLogCreate.mk day "lunch" 1 1)
     (analyze_and_find_food lower milk_request (inr milk_parsed)
        (inr (NutritionData.mk (Some "milk") (Some None) None None None None))
        ann_db).2).2.

(** A log of Ann's that refers to an item that does not exist. *)
Definition dangling_db : DB :=
  (create_food_log "ann" (FoodLogCreate.mk day "lunch" 1 42) ann_db).2.

(** A second user, Bob, registered after Ann's milk was created. *)
Definition bob : LoginRequest.t := LoginRequest.mk "bob" "hunter2".

Definition two_users_db : DB := (login bob milk_db).2.

(** A parsing reply whose quantity is an integer beyond the doubles. *)
Definition huge_parsed : ParsedResult.t :=
  ParsedResult.mk (Some (PyInt (2 ^ 1024))) (Some "g") (Some "rice").

(** ** Reading a log back *)

(** A log of a store as a handler returns it, with the food item its
    identifier selects in that store. *)
Definition with_food_item (db : DB) (l : FoodLog.t) : FoodLogORM.t :=
  FoodLogORM.mk l
    (head (filter (λ i, FoodItem.id i = FoodLog.food_item_id l) (food_items db))).

(** The calories a client reads off a returned log: quantity times the
    calories of the embedded item, when there is one with a value. *)
Definition record_calories (r : FoodLogORM.t) : option float :=
  (λ c, FoodLog.quantity (FoodLogORM.row r) * c)%float
    <$> (FoodLogORM.food_item r ≫= FoodItem.calories).

(** * Properties *)

(** ** Lookups *)

Section Lookup.
Context {A : Type} (P : A → Prop) `{∀ x, Decision (P x)}.

Lemma filter_none (l : list A) : (∀ x, x ∈ l → ¬ P x) → filter P l = [].
Proof.
  induction l as [|x l IH]; intros Hl; [done|].
  rewrite filter_cons_False by (apply Hl; left).
  apply IH. intros y Hy. apply Hl. by right.
Qed.

Lemma filter_all (l : list A) : (∀ x, x ∈ l → P x) → filter P l = l.
Proof.
  induction l as [|x l IH]; intros Hl; [done|].
  rewrite filter_cons_True by (apply Hl; left).
  f_equal. apply IH. intros y Hy. apply Hl. by right.
Qed.

Lemma head_filter_None (l : list A) :
  head (filter P l) = None → ∀ x, x ∈ l → ¬ P x.
Proof.
  intros Hhd x Hx HP.
  assert (x ∈ filter P l) as Hin by (by apply list_elem_of_filter).
  destruct (filter P l); [by apply elem_of_nil in Hin | discriminate].
Qed.

Lemma head_filter_holds (l : list A) x : head (filter P l) = Some x → P x ∧ x ∈ l.
Proof.
  intros Hhd. apply (proj1 (list_elem_of_filter P l x)).
  destruct (filter P l) as [|y k]; [discriminate|].
  injection Hhd as ->. left.
Qed.
End Lookup.

(** A key that is unique in a table selects exactly one row. *)
Lemma filter_key {A K} `{EqDecision K} (f : A → K) (l : list A) (x : A) :
  NoDup (f <$> l) → x ∈ l → filter (λ y, f y = f x) l = [x].
Proof.
  induction l as [|y l IH]; intros Hnd Hx; [by apply elem_of_nil in Hx|].
  rewrite fmap_cons in Hnd. apply NoDup_cons in Hnd as [Hy Hnd].
  apply elem_of_cons in Hx as [->|Hx].
  - rewrite filter_cons_True by done. f_equal.
    apply filter_none. intros z Hz Heq. apply Hy.
    rewrite <- Heq. by apply list_elem_of_fmap_2.
  - rewrite filter_cons_False; [by apply IH|].
    intros Heq. apply Hy. rewrite Heq. by apply list_elem_of_fmap_2.
Qed.

(** ** Login *)

(** C3: a login whose username matches no user inserts exactly one user row,
    holding that username and password, leaves the other tables alone and
    reports creation; it raises nothing. *)
Theorem login_first_seen_creates (request : LoginRequest.t) (db : DB) :
  (∀ u, u ∈ users db → User.username u ≠ LoginRequest.username request) →
  ∃ user db',
    login request db = (Return (mkStatus "success" "User created."), db')
    ∧ users db' = users db ++ [user]
    ∧ User.username user = LoginRequest.username request
    ∧ User.password user = LoginRequest.password request
    ∧ food_items db' = food_items db
    ∧ food_logs db' = food_logs db.
Proof.
  intros Hnew.
  exists (User.mk (users_id_seq db)
            (LoginRequest.username request) (LoginRequest.password request)).
  eexists. unfold login, bind, query_first.
  rewrite filter_none by done. simpl. repeat split; reflexivity.
Qed.

Lemma login_first_seen_creates_witness :
  ∃ user db',
    login (LoginRequest.mk "ann" "pw") create_all
      = (Return (mkStatus "success" "User created."), db')
    ∧ users db' = users create_all ++ [user]
    ∧ User.username user = "ann"
    ∧ User.password user = "pw"
    ∧ food_items db' = food_items create_all
    ∧ food_logs db' = food_logs create_all.
Proof.
  apply (login_first_seen_creates (LoginRequest.mk "ann" "pw") create_all).
  intros u Hu. simpl in Hu. by apply elem_of_nil in Hu.
Defined.

(** C4: a login whose username selects a user with another stored password
    raises the 401 exception and leaves the whole store as it was. *)
Theorem login_wrong_password (request : LoginRequest.t) (db : DB) (user : User.t) :
  head (filter (λ u, User.username u = LoginRequest.username request) (users db)) = Some user →
  User.password user ≠ LoginRequest.password request →
  login request db = (Raise (HTTPException 401 "Incorrect password"), db).
Proof.
  intros Hfound Hpw. unfold login, bind, query_first.
  rewrite Hfound. by rewrite decide_True.
Qed.

Lemma login_wrong_password_witness :
  let db := (login (LoginRequest.mk "ann" "pw") create_all).2 in
  login (LoginRequest.mk "ann" "PW") db
    = (Raise (HTTPException 401 "Incorrect password"), db).
Proof.
  apply (login_wrong_password (LoginRequest.mk "ann" "PW") _ (User.mk 1 "ann" "pw")).
  - reflexivity.
  - simpl. discriminate.
Defined.

(** ** Analysis of a description *)

Lemma normalize_cases (quantity : float) (unit : string) :
  normalize quantity unit =
    if decide (unit ∈ ["ml"; "g"; "gram"; "grams"])
    then ((quantity / 100)%float, if decide (unit = "ml") then "100ml" else "100g")
    else (quantity, unit).
Proof.
  unfold normalize.
  destruct (decide (unit ∈ ["ml"; "g"; "gram"; "grams"])) as [Hin|Hout]; [|done].
  repeat (apply elem_of_cons in Hin as [->|Hin]);
    [reflexivity .. | by apply elem_of_nil in Hin].
Qed.

(** What the handler does once the user is found, the parsing reply decoded
    and the quantity converted. *)
Lemma analyze_found (str_lower : string → string) (request : FoodAnalysisRequest.t)
    (parsed_result : ParsedResult.t) (nutrition_reply : string + NutritionData.t)
    (db : DB) (user : User.t) (q : float) :
  head (filter (λ u, User.username u = FoodAnalysisRequest.username request) (users db))
    = Some user →
  py_float (default (PyFloat 1) (ParsedResult.quantity parsed_result)) = Return q →
  let unit := str_lower (default "unit" (ParsedResult.unit parsed_result)) in
  let item_name_raw := str_lower (default "" (ParsedResult.item_name parsed_result)) in
  analyze_and_find_food str_lower request (inr parsed_result) nutrition_reply db =
    match head (filter (λ i, FoodItem.user_id i = User.id user
                             ∧ FoodItem.name i = item_name_raw) (food_items db)) with
    | Some existing_item =>
        (Return (Analysis.mk existing_item (normalize q unit).1 false), db)
    | None =>
        match nutrition_reply with
        | inl e => (Raise (HTTPException 500 ("AI nutrition fetch failed: " +:+ e)), db)
        | inr nutrition_data =>
            let new_item :=
              FoodItem.mk (food_items_id_seq db)
                (default item_name_raw (NutritionData.name nutrition_data))
                (default (Some 0%float) (NutritionData.calories nutrition_data))
                (default (Some 0%float) (NutritionData.protein nutrition_data))
                (default (Some 0%float) (NutritionData.carbs nutrition_data))
                (default (Some 0%float) (NutritionData.fat nutrition_data))
                (default (Some 0%float) (NutritionData.fiber nutrition_data))
                (normalize q unit).2 (User.id user) in
            (Return (Analysis.mk new_item (normalize q unit).1 true),
             mkDB (users db) (food_items db ++ [new_item]) (food_logs db)
               (users_id_seq db) (food_items_id_seq db + 1) (food_logs_id_seq db))
        end
    end.
Proof.
  intros Huser Hq unit item_name_raw.
  unfold analyze_and_find_food, bind, query_first, lift.
  rewrite Huser, Hq. fold unit item_name_raw.
  destruct (head (filter _ (food_items db))) as [existing_item|]; [done|].
  by destruct nutrition_reply.
Qed.

(** C1: in [analyze_and_find_food], when the lower-cased unit is one of
    [ml], [g], [gram], [grams] the returned quantity is the extracted one
    divided by 100 and the serving label of a created item is [100ml] (for
    [ml]) or [100g] (for the three others); for any other unit the quantity
    and the lower-cased unit pass through unchanged.  The first conjunct
    states it of the normalisation step, the second of the handler's
    response, the last two are the cases named by the specification. *)
Theorem analyze_normalizes_quantity :
  (∀ (q : float) (unit : string),
      (unit ∈ ["ml"; "g"; "gram"; "grams"] →
         normalize q unit
           = ((q / 100)%float, if decide (unit = "ml") then "100ml" else "100g"))
      ∧ (unit ∉ ["ml"; "g"; "gram"; "grams"] → normalize q unit = (q, unit)))
  ∧ (∀ (str_lower : string → string) (request : FoodAnalysisRequest.t)
       (parsed_result : ParsedResult.t) (nutrition_reply : string + NutritionData.t)
       (db db' : DB) (response : Analysis.t),
       analyze_and_find_food str_lower request (inr parsed_result) nutrition_reply db
         = (Return response, db') →
       ∃ q, py_float (default (PyFloat 1) (ParsedResult.quantity parsed_result)) = Return q
         ∧ let unit := str_lower (default "unit" (ParsedResult.unit parsed_result)) in
           Analysis.quantity response
             = (if decide (unit ∈ ["ml"; "g"; "gram"; "grams"]) then (q / 100)%float else q)
           ∧ (Analysis.new response = true →
              FoodItem.serving_size_unit (Analysis.item response)
                = if decide (unit ∈ ["ml"; "g"; "gram"; "grams"])
                  then (if decide (unit = "ml") then "100ml" else "100g")
                  else unit))
  ∧ (py_float (PyInt 500) = Return 500%float
     ∧ normalize 500 "ml" = (5%float, "100ml"))
  ∧ (py_float (PyInt 1) = Return 1%float
     ∧ normalize 1 "unit" = (1%float, "unit")).
Proof.
  split; [|split; [|by vm_compute]].
  - intros q unit. rewrite normalize_cases. split; intros Hu.
    + by rewrite decide_True.
    + by rewrite decide_False.
  - intros str_lower request parsed_result nutrition_reply db db' response Hrun.
    destruct (head (filter (λ u, User.username u = FoodAnalysisRequest.username request)
                      (users db))) as [user|] eqn:Huser;
      [|by unfold analyze_and_find_food, bind, query_first in Hrun; rewrite Huser in Hrun].
    destruct (py_float (default (PyFloat 1) (ParsedResult.quantity parsed_result)))
      as [q|e] eqn:Hq;
      [|by unfold analyze_and_find_food, bind, query_first, lift in Hrun;
           rewrite Huser, Hq in Hrun].
    exists q. split; [done|].
    rewrite (analyze_found _ _ _ _ _ _ _ Huser Hq) in Hrun.
    intros unit. fold unit in Hrun. rewrite normalize_cases in Hrun.
    destruct (head (filter _ (food_items db))) as [existing_item|].
    + injection Hrun as <- <-. simpl. by destruct (decide (unit ∈ _)).
    + destruct nutrition_reply as [e|nutrition_data]; [discriminate|].
      injection Hrun as <- <-. simpl. by destruct (decide (unit ∈ _)).
Qed.

Lemma analyze_normalizes_quantity_witness :
  ∃ q, py_float (PyInt 500) = Return q
    ∧ 5%float = (if decide ("ml" ∈ ["ml"; "g"; "gram"; "grams"]) then (q / 100)%float else q)
    ∧ (true = true →
       "100ml" = if decide ("ml" ∈ ["ml"; "g"; "gram"; "grams"])
                 then (if decide ("ml" = "ml") then "100ml" else "100g")
                 else "ml").
Proof.
  exact (proj1 (proj2 analyze_normalizes_quantity) lower milk_request milk_parsed
           (inr milk_nutrition) ann_db milk_db
           (Analysis.mk (FoodItem.mk 1 "milk" (Some 5%float) (Some 3.5%float)
                           (Some 5%float) (Some 1%float) (Some 0%float) "100ml" 1)
              5%float true)
           eq_refl).
Defined.

(** X7: when the nutrition reply keeps the name it was asked about (or names
    nothing), a later analysis by the same user that extracts the same
    lower-cased name finds the item the first one created: it answers with
    that item and [new] unset, whatever the second nutrition reply, and
    stores nothing. *)
Lemma analyze_again_finds_item (str_lower : string → string)
    (request1 request2 : FoodAnalysisRequest.t) (parsed1 parsed2 : ParsedResult.t)
    (nutrition1 : NutritionData.t) (nutrition_reply2 : string + NutritionData.t)
    (db db1 : DB) (response1 : Analysis.t) (q2 : float) :
  FoodAnalysisRequest.username request2 = FoodAnalysisRequest.username request1 →
  str_lower (default "" (ParsedResult.item_name parsed2))
    = str_lower (default "" (ParsedResult.item_name parsed1)) →
  default (str_lower (default "" (ParsedResult.item_name parsed1)))
    (NutritionData.name nutrition1)
    = str_lower (default "" (ParsedResult.item_name parsed1)) →
  analyze_and_find_food str_lower request1 (inr parsed1) (inr nutrition1) db
    = (Return response1, db1) →
  Analysis.new response1 = true →
  py_float (default (PyFloat 1) (ParsedResult.quantity parsed2)) = Return q2 →
  ∃ response2,
    analyze_and_find_food str_lower request2 (inr parsed2) nutrition_reply2 db1
      = (Return response2, db1)
    ∧ Analysis.item response2 = Analysis.item response1
    ∧ Analysis.new response2 = false.
Proof.
  intros Hname Hitem Hkept Hrun1 Hnew1 Hq2.
  destruct (head (filter (λ u, User.username u = FoodAnalysisRequest.username request1)
                    (users db))) as [user|] eqn:Huser;
    [|by unfold analyze_and_find_food, bind, query_first in Hrun1; rewrite Huser in Hrun1].
  destruct (py_float (default (PyFloat 1) (ParsedResult.quantity parsed1)))
    as [q1|e] eqn:Hq1;
    [|by unfold analyze_and_find_food, bind, query_first, lift in Hrun1;
         rewrite Huser, Hq1 in Hrun1].
  rewrite (analyze_found _ _ _ _ _ _ _ Huser Hq1) in Hrun1. cbv zeta in Hrun1.
  destruct (head (filter _ (food_items db))) as [existing_item|] eqn:Hexisting.
  { injection Hrun1 as <- <-. discriminate. }
  injection Hrun1 as <- <-. clear Hnew1.
  assert (head (filter (λ u, User.username u = FoodAnalysisRequest.username request2)
                  (users db)) = Some user) as Huser2 by (by rewrite Hname).
  rewrite (analyze_found str_lower request2 parsed2 nutrition_reply2
             (mkDB _ _ _ _ _ _) user q2 Huser2 Hq2).
  cbv zeta. simpl food_items. rewrite Hitem, filter_app.
  rewrite filter_none by exact (head_filter_None _ _ Hexisting).
  rewrite filter_cons_True by (by simpl; rewrite Hkept).
  simpl. eexists. split; [reflexivity|]. by split.
Qed.

(** C2: the second of two analyses that extract the same lower-cased name
    does not resolve to the item the first one created when the nutrition
    reply renamed it.  Ann's "milk" is stored as "Milk" (item 1); the lookup
    of "milk" then finds nothing and a second item (item 2) is created, with
    [new] set. *)
Theorem analyze_same_name_twice_duplicates :
  let first :=
    analyze_and_find_food lower milk_request (inr milk_parsed) (inr Milk_nutrition) ann_db in
  let second :=
    analyze_and_find_food lower milk_request (inr milk_parsed) (inr Milk_nutrition) first.2 in
  (FoodItem.id <$> food_items first.2) = [1]
  ∧ (FoodItem.id <$> food_items second.2) = [1; 2]
  ∧ (FoodItem.name <$> food_items second.2) = ["Milk"; "Milk"]
  ∧ match first.1, second.1 with
    | Return response1, Return response2 =>
        Analysis.new response1 = true
        ∧ Analysis.new response2 = true
        ∧ FoodItem.id (Analysis.item response1) = 1
        ∧ FoodItem.id (Analysis.item response2) = 2
    | _, _ => False
    end.
Proof. by vm_compute. Qed.

(** ** Listing of food items *)

Lemma str_leb_total (s t : string) : str_leb s t ∨ str_leb t s.
Proof.
  revert t. induction s as [|a s IH]; intros [|b t]; simpl; auto.
  destruct (Nat.ltb_spec (nat_of_ascii a) (nat_of_ascii b)) as [Hab|Hab]; [by left|].
  destruct (Nat.ltb_spec (nat_of_ascii b) (nat_of_ascii a)) as [Hba|Hba]; [by right|].
  apply IH.
Qed.

Lemma str_leb_trans (s t u : string) : str_leb s t → str_leb t u → str_leb s u.
Proof.
  revert t u. induction s as [|a s IH]; intros [|b t] [|c u]; simpl; try done.
  destruct (Nat.ltb_spec (nat_of_ascii a) (nat_of_ascii b)) as [Hab|Hab];
    destruct (Nat.ltb_spec (nat_of_ascii b) (nat_of_ascii c)) as [Hbc|Hbc];
    destruct (Nat.ltb_spec (nat_of_ascii a) (nat_of_ascii c)) as [Hac|Hac];
    try done; try lia.
  - destruct (Nat.ltb_spec (nat_of_ascii c) (nat_of_ascii b)); [done|lia].
  - destruct (Nat.ltb_spec (nat_of_ascii b) (nat_of_ascii a)); [done|lia].
  - destruct (Nat.ltb_spec (nat_of_ascii b) (nat_of_ascii a)); [done|].
    destruct (Nat.ltb_spec (nat_of_ascii c) (nat_of_ascii b)); [done|].
    destruct (Nat.ltb_spec (nat_of_ascii c) (nat_of_ascii a)); [lia|].
    apply IH.
Qed.

#[local] Instance name_le_total : Total name_le.
Proof. intros i j. apply str_leb_total. Qed.

#[local] Instance name_le_trans : Transitive name_le.
Proof. intros i j k. apply str_leb_trans. Qed.

(** C6: for a known username the listing returns the food items whose owner
    is the user found, each exactly once, in ascending lexicographic order of
    their names, and changes nothing; for an unknown username it raises the
    404 exception. *)
Theorem food_items_listing (username : string) (db : DB) :
  (∀ user,
      head (filter (λ u, User.username u = username) (users db)) = Some user →
      ∃ items,
        get_user_food_items username db = (Return items, db)
        ∧ items ≡ₚ filter (λ i, FoodItem.user_id i = User.id user) (food_items db)
        ∧ StronglySorted name_le items)
  ∧ ((∀ u, u ∈ users db → User.username u ≠ username) →
     get_user_food_items username db
       = (Raise (HTTPException 404 "User not found"), db)).
Proof.
  split.
  - intros user Huser. eexists.
    unfold get_user_food_items, bind, query_first, query_all_order_by.
    rewrite Huser. split; [reflexivity|]. split.
    + apply merge_sort_Permutation.
    + apply (StronglySorted_merge_sort name_le).
  - intros Hunknown. unfold get_user_food_items, bind, query_first.
    by rewrite filter_none.
Qed.

Lemma food_items_listing_witness :
  ∃ items,
    get_user_food_items "ann" pantry_db = (Return items, pantry_db)
    ∧ items ≡ₚ filter (λ i, FoodItem.user_id i = 1) (food_items pantry_db)
    ∧ StronglySorted name_le items.
Proof.
  exact (proj1 (food_items_listing "ann" pantry_db) (User.mk 1 "ann" "pw") eq_refl).
Defined.

(** The items are stored as milk, apple and listed as apple, milk. *)
Example food_items_listing_pantry :
  FoodItem.name <$> food_items pantry_db = ["milk"; "apple"]
  ∧ match (get_user_food_items "ann" pantry_db).1 with
    | Return items => FoodItem.name <$> items = ["apple"; "milk"]
    | Raise _ => False
    end.
Proof. by vm_compute. Qed.

(** ** Deletion of a log *)

(** C7: when no log has the identifier, deletion raises the 404 exception
    and the store is unchanged; when a log has it, whoever its owner is, the
    deletion succeeds and removes that row and no other. *)
Theorem delete_log_outcome (log_id : Z) (db : DB) :
  ((∀ l, l ∈ food_logs db → FoodLog.id l ≠ log_id) →
   delete_log log_id db = (Raise (HTTPException 404 "Log not found"), db))
  ∧ (∀ before log after,
       NoDup (FoodLog.id <$> food_logs db) →
       food_logs db = before ++ log :: after →
       FoodLog.id log = log_id →
       delete_log log_id db
         = (Return (mkStatus "success" "Log deleted"),
            mkDB (users db) (food_items db) (before ++ after)
              (users_id_seq db) (food_items_id_seq db) (food_logs_id_seq db))).
Proof.
  split.
  - intros Habsent. unfold delete_log, bind, query_first.
    by rewrite filter_none.
  - intros before log after Hkey Hlogs <-.
    assert (log ∈ food_logs db) as Hin by (rewrite Hlogs; set_solver).
    unfold delete_log, bind, query_first, delete_food_log.
    rewrite (filter_key FoodLog.id _ _ Hkey Hin). simpl.
    do 2 f_equal. rewrite Hlogs in Hkey |- *.
    rewrite fmap_app, fmap_cons in Hkey.
    apply NoDup_app in Hkey as (_ & Hbefore & Hafter).
    apply NoDup_cons in Hafter as [Hafter _].
    rewrite filter_app, filter_cons_False by (by intros []).
    rewrite !filter_all; [done| |].
    + intros x Hx Heq. apply Hafter. rewrite <- Heq. by apply list_elem_of_fmap_2.
    + intros x Hx Heq. apply (Hbefore (FoodLog.id x)).
      * by apply list_elem_of_fmap_2.
      * rewrite Heq. left.
Qed.

Lemma delete_log_outcome_witness :
  delete_log 1 logged_db
    = (Return (mkStatus "success" "Log deleted"),
       mkDB (users logged_db) (food_items logged_db)
         ([] ++ [FoodLog.mk 2 day "lunch" 3 1 1])
         (users_id_seq logged_db) (food_items_id_seq logged_db)
         (food_logs_id_seq logged_db)).
Proof.
  apply (proj2 (delete_log_outcome 1 logged_db)
           [] (FoodLog.mk 1 day "breakfast" 2 1 1) [FoodLog.mk 2 day "lunch" 3 1 1]).
  - apply (bool_decide_unpack _). by vm_compute.
  - reflexivity.
  - reflexivity.
Defined.

(** ** Creation of a log *)

(** X19: a log for an existing item.  For a known username and a payload
    whose identifier is the key of a food item, whoever owns that item,
    creation appends one log row that links the user found to the
    identifier and returns that row with the item embedded; the owner of the
    item is not looked at.  For an unknown username it raises the 404
    exception and stores nothing. *)
Theorem create_food_log_existing_item (username : string) (log : FoodLogCreate.t)
    (db : DB) :
  (∀ user item,
      head (filter (λ u, User.username u = username) (users db)) = Some user →
      NoDup (FoodItem.id <$> food_items db) →
      item ∈ food_items db →
      FoodItem.id item = FoodLogCreate.food_item_id log →
      let db_log :=
        FoodLog.mk (food_logs_id_seq db) (FoodLogCreate.date log)
          (FoodLogCreate.meal_type log) (FoodLogCreate.quantity log)
          (User.id user) (FoodLogCreate.food_item_id log) in
      create_food_log username log db
      = (Return (FoodLogORM.mk db_log (Some item)),
         mkDB (users db) (food_items db) (food_logs db ++ [db_log])
           (users_id_seq db) (food_items_id_seq db) (food_logs_id_seq db + 1)))
  ∧ ((∀ u, u ∈ users db → User.username u ≠ username) →
     create_food_log username log db
       = (Raise (HTTPException 404 "User not found"), db)).
Proof.
  split.
  - intros user item Huser Hkey Hin Hid db_log.
    unfold create_food_log, bind, query_first, add_food_log, load_food_item.
    assert (head (filter (λ i, FoodItem.id i = FoodLogCreate.food_item_id log)
                    (food_items db)) = Some item) as Hitem.
    { by rewrite <- Hid, (filter_key FoodItem.id _ _ Hkey Hin). }
    rewrite Huser. simpl. unfold bind, query_first, ret. simpl.
    by rewrite Hitem.
  - intros Hunknown. unfold create_food_log, bind, query_first.
    by rewrite filter_none.
Qed.

(** Bob logs a serving of Ann's milk. *)
Lemma create_food_log_existing_item_witness :
  create_food_log "bob" (FoodLogCreate.mk day "lunch" 3 1) two_users_db
  = (Return (FoodLogORM.mk (FoodLog.mk 1 day "lunch" 3 2 1)
               (Some (FoodItem.mk 1 "milk" (Some 5%float) (Some 3.5%float) (Some 5%float)
                        (Some 1%float) (Some 0%float) "100ml" 1))),
     mkDB (users two_users_db) (food_items two_users_db)
       (food_logs two_users_db ++ [FoodLog.mk 1 day "lunch" 3 2 1])
       (users_id_seq two_users_db) (food_items_id_seq two_users_db)
       (food_logs_id_seq two_users_db + 1)).
Proof.
  apply (proj1 (create_food_log_existing_item "bob" (FoodLogCreate.mk day "lunch" 3 1)
                  two_users_db)
           (User.mk 2 "bob" "hunter2")
           (FoodItem.mk 1 "milk" (Some 5%float) (Some 3.5%float) (Some 5%float)
              (Some 1%float) (Some 0%float) "100ml" 1)).
  - reflexivity.
  - apply (bool_decide_unpack _). by vm_compute.
  - left.
  - reflexivity.
Defined.

(** C8: an identifier that matches no food item.  Ann logs a serving of item
    42, which does not exist.  On a store that does not enforce the foreign
    key the schema declares, the row is stored, and the record the handler
    returns carries no food item: it does not validate against the response
    model the endpoint declares ([FoodLogInDB], whose [food_item] is
    required), so no created record with an embedded food item is
    returned. *)
Theorem create_food_log_invalid_item :
  create_food_log "ann" (FoodLogCreate.mk day "lunch" 1 42) ann_db
    = (Return (FoodLogORM.mk (FoodLog.mk 1 day "lunch" 1 1 42) None), dangling_db)
  ∧ food_logs dangling_db = [FoodLog.mk 1 day "lunch" 1 1 42]
  ∧ FoodLogInDB.from_orm (FoodLogORM.mk (FoodLog.mk 1 day "lunch" 1 1 42) None) = None.
Proof. by vm_compute. Qed.

(** ** The read endpoints *)

Lemma load_food_items_reads (logs : list FoodLog.t) (db : DB) :
  (load_food_items logs db).2 = db.
Proof.
  induction logs as [|log logs IH]; [done|].
  simpl. unfold bind, load_food_item, query_first, ret in *. simpl.
  destruct (load_food_items logs db) as [[xs|e] db'] eqn:Hrest; simpl in IH; by subst.
Qed.

(** C9: the listing of food items, the retrieval of logs by date and the
    calendar aggregate return the store they were given, for every input and
    whatever the outcome (result, 404 or 500). *)
Theorem read_endpoints_change_nothing (username : string) (log_date : Date.t)
    (query_error : option string) (backend_sum : Date.t → list float → float)
    (db : DB) :
  (get_user_food_items username db).2 = db
  ∧ (get_logs_for_date username log_date db).2 = db
  ∧ (get_calendar_data username query_error backend_sum db).2 = db.
Proof.
  repeat split.
  - unfold get_user_food_items, bind, query_first, query_all_order_by.
    by destruct (head _).
  - unfold get_logs_for_date, bind, query_first, query_all.
    destruct (head _); [|done]. apply load_food_items_reads.
  - unfold get_calendar_data, bind, query_first, calories_per_day.
    destruct (head _); [|done]. by destruct query_error.
Qed.

(** ** The calendar aggregate *)

Lemma digit_inj (a b : Z) : Date.digit a = Date.digit b → a mod 10 = b mod 10.
Proof.
  intros Heq. apply (f_equal nat_of_ascii) in Heq. unfold Date.digit in Heq.
  pose proof (Z.mod_pos_bound a 10). pose proof (Z.mod_pos_bound b 10).
  rewrite !nat_ascii_embedding in Heq by lia. lia.
Qed.

Lemma valid_range (d : Date.t) :
  Date.valid d →
  1 ≤ Date.year d ≤ 9999 ∧ 1 ≤ Date.month d ≤ 12 ∧ 1 ≤ Date.day d ≤ 31.
Proof.
  intros (Hy & Hm & Hd). repeat split; try lia.
  unfold Date.days_in_month in Hd.
  repeat case_match; lia.
Qed.

(** On dates, the ISO format is injective. *)
Lemma isoformat_inj (d1 d2 : Date.t) :
  Date.valid d1 → Date.valid d2 → Date.isoformat d1 = Date.isoformat d2 → d1 = d2.
Proof.
  intros H1%valid_range H2%valid_range Heq.
  destruct d1 as [y1 m1 n1], d2 as [y2 m2 n2]. simpl in *.
  unfold Date.isoformat in Heq. simpl in Heq.
  injection Heq as Ha Hb Hc Hd He Hf Hg Hh.
  apply digit_inj in Ha, Hb, Hc, Hd, He, Hf, Hg, Hh.
  f_equal; Z.to_euclidean_division_equations; lia.
Qed.

Lemma calendar_dict_snoc (rows : list (Date.t * option float)) (r : Date.t * option float) :
  calendar_dict (rows ++ [r]) =
    match r.2 with
    | Some total => <[Date.isoformat r.1 := total]> (calendar_dict rows)
    | None => calendar_dict rows
    end.
Proof. unfold calendar_dict. by rewrite foldl_snoc. Qed.

(** Every key of the dictionary is the ISO form of a date of a row with a
    total. *)
Lemma calendar_dict_key (rows : list (Date.t * option float)) (k : string) (v : float) :
  calendar_dict rows !! k = Some v →
  ∃ d, (d, Some v) ∈ rows ∧ k = Date.isoformat d.
Proof.
  induction rows as [|[d t] rows IH] using rev_ind; intros Hk.
  { unfold calendar_dict in Hk. simpl in Hk. by rewrite lookup_empty in Hk. }
  rewrite calendar_dict_snoc in Hk. simpl in Hk.
  destruct t as [total|].
  - destruct (decide (Date.isoformat d = k)) as [<-|Hne].
    + rewrite lookup_insert_eq in Hk. injection Hk as ->.
      exists d. split; [|done]. apply elem_of_app. right. left.
    + rewrite lookup_insert_ne in Hk by done.
      destruct (IH Hk) as (d' & Hin & ->). exists d'. split; [|done].
      apply elem_of_app. by left.
  - destruct (IH Hk) as (d' & Hin & ->). exists d'. split; [|done].
    apply elem_of_app. by left.
Qed.

Lemma calendar_dict_absent (rows : list (Date.t * option float)) (d : Date.t) :
  Date.valid d → (∀ r, r ∈ rows → Date.valid r.1) → d ∉ rows.*1 →
  calendar_dict rows !! Date.isoformat d = None.
Proof.
  intros Hd Hrows Hout.
  destruct (calendar_dict rows !! Date.isoformat d) as [v|] eqn:Hk; [|done].
  apply calendar_dict_key in Hk as (d' & Hin & Heq).
  apply isoformat_inj in Heq; [|done|exact (Hrows _ Hin)]. subst d'.
  destruct Hout. by apply (list_elem_of_fmap_2 fst) in Hin.
Qed.

(** With one row per date, the dictionary holds the total of each row. *)
Lemma calendar_dict_lookup (rows : list (Date.t * option float)) (d : Date.t)
    (t : option float) :
  NoDup rows.*1 → (∀ r, r ∈ rows → Date.valid r.1) → (d, t) ∈ rows →
  calendar_dict rows !! Date.isoformat d = t.
Proof.
  induction rows as [|[d' t'] rows IH] using rev_ind; intros Hnd Hvalid Hin.
  { by apply elem_of_nil in Hin. }
  rewrite fmap_app in Hnd. apply NoDup_app in Hnd as (Hnd & Hfresh & _).
  assert (∀ r, r ∈ rows → Date.valid r.1) as Hvalid'.
  { intros r Hr. apply Hvalid, elem_of_app. by left. }
  assert (Date.valid d') as Hd'.
  { apply (Hvalid (d', t')), elem_of_app. right. left. }
  rewrite calendar_dict_snoc. simpl.
  apply elem_of_app in Hin as [Hin|Hin].
  - assert (d ≠ d') as Hne.
    { intros ->. apply (Hfresh d'); [|left].
      by apply (list_elem_of_fmap_2 fst) in Hin. }
    assert (Date.isoformat d' ≠ Date.isoformat d) as Hkey.
    { intros Heq. apply Hne. symmetry. apply isoformat_inj; [done| |done].
      exact (Hvalid' _ Hin). }
    destruct t'; [rewrite lookup_insert_ne by done|]; by apply IH.
  - apply list_elem_of_singleton in Hin. injection Hin as -> ->.
    destruct t' as [total|]; [by rewrite lookup_insert_eq|].
    apply calendar_dict_absent; [done..|].
    intros Hd. apply (Hfresh d' Hd). left.
Qed.

Lemma elem_of_join (logs : list FoodLog.t) (items : list FoodItem.t)
    (r : FoodLog.t * FoodItem.t) :
  r ∈ join logs items ↔
  r.1 ∈ logs ∧ r.2 ∈ items ∧ FoodLog.food_item_id r.1 = FoodItem.id r.2.
Proof.
  unfold join. rewrite list_elem_of_bind. split.
  - intros (l & Hr & Hl). apply list_elem_of_bind in Hr as (i & Hr & Hi).
    apply list_elem_of_ret in Hr as ->. simpl.
    apply list_elem_of_filter in Hi as [Heq Hi]. done.
  - intros (Hl & Hi & Heq). destruct r as [l i]. simpl in *.
    exists l. split; [|done]. apply list_elem_of_bind. exists i. split.
    + by apply list_elem_of_ret.
    + by apply list_elem_of_filter.
Qed.

(** The dictionary built from the aggregate holds, at each date, the total
    of the group of that date, and nothing for a date without a group. *)
Lemma calendar_lookup (backend_sum : Date.t → list float → float) (db : DB)
    (user : User.t) (rows : list (Date.t * option float)) (d : Date.t) :
  (∀ l, l ∈ food_logs db → Date.valid (FoodLog.date l)) →
  Date.valid d →
  calories_per_day backend_sum user db = (Return rows, db) →
  calendar_dict rows !! Date.isoformat d
    = total_calories backend_sum (user_rows db (User.id user)) d.
Proof.
  intros Hdates Hd Hrows. unfold calories_per_day in Hrows.
  injection Hrows as <-.
  set (joined := user_rows db (User.id user)).
  set (dates := remove_dups ((λ r, FoodLog.date r.1) <$> joined)).
  assert (((λ d, (d, total_calories backend_sum joined d)) <$> dates).*1 = dates) as Hfst.
  { rewrite <- list_fmap_compose. apply list_fmap_id. }
  assert (∀ r, r ∈ (λ d, (d, total_calories backend_sum joined d)) <$> dates → Date.valid r.1)
    as Hvalid.
  { intros r (d' & -> & Hd')%list_elem_of_fmap. simpl.
    apply elem_of_remove_dups, list_elem_of_fmap in Hd' as (row & -> & Hrow).
    apply list_elem_of_filter in Hrow as [_ Hrow].
    apply elem_of_join in Hrow as (Hlog & _). by apply Hdates. }
  destruct (decide (d ∈ dates)) as [Hin|Hout].
  - apply calendar_dict_lookup; [|done|].
    + rewrite Hfst. apply NoDup_remove_dups.
    + by apply (list_elem_of_fmap_2 (λ d, (d, total_calories backend_sum joined d))).
  - rewrite calendar_dict_absent; [|done|done|by rewrite Hfst].
    unfold total_calories. rewrite filter_none; [done|].
    intros row Hrow Hdate. apply Hout, elem_of_remove_dups.
    rewrite <- Hdate. by apply (list_elem_of_fmap_2 (λ r, FoodLog.date r.1)).
Qed.

Lemma join_cons (l : FoodLog.t) (logs : list FoodLog.t) (items : list FoodItem.t) :
  join (l :: logs) items
  = ((λ i, (l, i)) <$> filter (λ i, FoodLog.food_item_id l = FoodItem.id i) items)
      ++ join logs items.
Proof.
  unfold join. rewrite bind_cons. f_equal.
Qed.

(** A log that refers to no item contributes no row to the join. *)
Lemma join_dangling (before after : list FoodLog.t) (log : FoodLog.t)
    (items : list FoodItem.t) :
  (∀ i, i ∈ items → FoodItem.id i ≠ FoodLog.food_item_id log) →
  join (before ++ log :: after) items = join (before ++ after) items.
Proof.
  intros Hnone. unfold join at 1 2. rewrite !bind_app. f_equal.
  fold (join (log :: after) items). rewrite join_cons, filter_none; [done|].
  intros i Hi Heq. by apply (Hnone i).
Qed.

(** The rows of one log in a table with unique keys. *)
Lemma referenced_item (items : list FoodItem.t) (k : Z) :
  NoDup (FoodItem.id <$> items) →
  filter (λ i, k = FoodItem.id i) items
    = option_list (head (filter (λ i, FoodItem.id i = k) items)).
Proof.
  intros Hkey.
  rewrite (list_filter_iff (λ i, k = FoodItem.id i) (λ i, FoodItem.id i = k))
    by (intros; split; congruence).
  destruct (filter (λ i, FoodItem.id i = k) items) as [|i its] eqn:Hfilter; [done|].
  assert (i ∈ filter (λ i, FoodItem.id i = k) items) as Hi by (rewrite Hfilter; left).
  apply list_elem_of_filter in Hi as [<- Hi].
  rewrite (filter_key FoodItem.id _ _ Hkey Hi) in Hfilter.
  by injection Hfilter as <-.
Qed.

Lemma rows_of_logs (items : list FoodItem.t) (uid : Z) (d : Date.t)
    (logs : list FoodLog.t) :
  NoDup (FoodItem.id <$> items) →
  omap id ((λ r, sql_mul (Some (FoodLog.quantity r.1)) (FoodItem.calories r.2))
             <$> filter (λ r, FoodLog.date r.1 = d)
                   (filter (λ r, FoodLog.user_id r.1 = uid) (join logs items)))
  = omap (λ l, (λ c, FoodLog.quantity l * c)%float
                 <$> (head (filter (λ i, FoodItem.id i = FoodLog.food_item_id l) items)
                        ≫= FoodItem.calories))
      (filter (λ l, FoodLog.user_id l = uid ∧ FoodLog.date l = d) logs).
Proof.
  intros Hkey. induction logs as [|l logs IH]; [done|].
  rewrite join_cons, !filter_app, fmap_app, omap_app, IH. clear IH.
  rewrite list_filter_filter, (referenced_item _ _ Hkey).
  destruct (decide (FoodLog.user_id l = uid ∧ FoodLog.date l = d)) as [Hl|Hl].
  - rewrite (filter_cons_True _ l) by exact Hl. simpl.
    destruct (head (filter _ items)) as [i|]; [|done].
    simpl. rewrite filter_cons_True by (by destruct Hl).
    simpl. by destruct (FoodItem.calories i).
  - rewrite (filter_cons_False _ l) by exact Hl.
    destruct (head (filter _ items)) as [i|]; [|done].
    simpl. rewrite filter_cons_False; [done|].
    intros [? ?]. by apply Hl.
Qed.

(** With unique item keys, the values of a group are the values in the
    words of the specification, and so is its total. *)
Lemma total_calories_day_total (backend_sum : Date.t → list float → float)
    (db : DB) (uid : Z) (d : Date.t) :
  NoDup (FoodItem.id <$> food_items db) →
  total_calories backend_sum (user_rows db uid) d = day_total backend_sum db uid d.
Proof.
  intros Hkey.
  unfold total_calories, sql_sum, user_rows, day_total, day_products, referenced_calories.
  f_equal. by apply rows_of_logs.
Qed.

Lemma get_calendar_data_found (backend_sum : Date.t → list float → float)
    (username : string) (db : DB) (user : User.t) :
  head (filter (λ u, User.username u = username) (users db)) = Some user →
  ∃ rows,
    calories_per_day backend_sum user db = (Return rows, db)
    ∧ get_calendar_data username None backend_sum db
      = (Return (calendar_dict rows), db).
Proof.
  intros Huser. eexists. split; [reflexivity|].
  unfold get_calendar_data, bind, query_first. by rewrite Huser.
Qed.

(** A date has no total exactly when no log of the user on that date refers
    to an item with a calorie value. *)
Lemma day_total_None (backend_sum : Date.t → list float → float)
    (db : DB) (uid : Z) (d : Date.t) :
  day_total backend_sum db uid d = None ↔
  ∀ l, l ∈ food_logs db → FoodLog.user_id l = uid → FoodLog.date l = d →
       referenced_calories db l = None.
Proof.
  unfold day_total, day_products, total_of.
  set (product := λ l, (λ c, (FoodLog.quantity l * c)%float) <$> referenced_calories db l).
  split.
  - intros Hnone l Hl Hu Hd.
    destruct (referenced_calories db l) as [c|] eqn:Hc; [|done].
    assert ((FoodLog.quantity l * c)%float
              ∈ omap product (filter (λ l, FoodLog.user_id l = uid ∧ FoodLog.date l = d)
                                (food_logs db))) as Hin.
    { apply list_elem_of_omap. exists l. split.
      - by apply list_elem_of_filter.
      - unfold product. by rewrite Hc. }
    destruct (omap product _); [by apply elem_of_nil in Hin | discriminate].
  - intros Hall.
    assert (omap product (filter (λ l, FoodLog.user_id l = uid ∧ FoodLog.date l = d)
                            (food_logs db)) = []) as ->; [|done].
    induction (food_logs db) as [|l logs IH]; [done|].
    rewrite filter_cons. case_decide as Hl.
    + simpl. unfold product at 1. rewrite (Hall l); [|left|apply Hl..].
      simpl. apply IH. intros l' Hl'. apply Hall. by right.
    + apply IH. intros l' Hl'. apply Hall. by right.
Qed.

(** C5 (as the code has it): for a known user the calendar aggregate is the
    mapping that sends the ISO form of each date on which the user has at
    least one log whose food item exists and has a calorie value to the
    backend's [SUM], over those logs, of quantity times the calories of the
    item; every other date is absent from the mapping, and the store is
    unchanged.  Logs of 2 and 3 servings of a 5-calorie item on one day give
    25 for that day, with any summation that makes 25 of 10 and 15. *)
Theorem calendar_sums_per_day :
  (∀ (backend_sum : Date.t → list float → float) (username : string) (db : DB)
     (user : User.t),
      NoDup (FoodItem.id <$> food_items db) →
      (∀ l, l ∈ food_logs db → Date.valid (FoodLog.date l)) →
      head (filter (λ u, User.username u = username) (users db)) = Some user →
      ∃ calendar_data : gmap string float,
        get_calendar_data username None backend_sum db = (Return calendar_data, db)
        ∧ (∀ d, Date.valid d →
             calendar_data !! Date.isoformat d
             = day_total backend_sum db (User.id user) d)
        ∧ (∀ d, Date.valid d →
             (calendar_data !! Date.isoformat d = None ↔
              ∀ l, l ∈ food_logs db → FoodLog.user_id l = User.id user →
                   FoodLog.date l = d → referenced_calories db l = None))
        ∧ (∀ k v, calendar_data !! k = Some v →
             ∃ d, Date.valid d ∧ k = Date.isoformat d))
  ∧ (∀ backend_sum : Date.t → list float → float,
       backend_sum day [10%float; 15%float] = 25%float →
       get_calendar_data "ann" None backend_sum logged_db
       = (Return {[ "2024-03-09" := 25%float ]}, logged_db))
  ∧ sum_in_order day [10%float; 15%float] = 25%float
  ∧ sum_in_reverse day [10%float; 15%float] = 25%float.
Proof.
  split; [|split; [|by vm_compute]].
  - intros backend_sum username db user Hkey Hdates Huser.
    destruct (get_calendar_data_found backend_sum _ _ _ Huser) as (rows & Hrows & Hrun).
    exists (calendar_dict rows). split; [done|].
    assert (∀ d, Date.valid d →
              calendar_dict rows !! Date.isoformat d
              = day_total backend_sum db (User.id user) d) as Hlookup.
    { intros d Hd. rewrite (calendar_lookup backend_sum db user rows d Hdates Hd Hrows).
      by apply total_calories_day_total. }
    split; [done|]. split.
    + intros d Hd. rewrite (Hlookup d Hd). apply day_total_None.
    + intros k v Hk. apply calendar_dict_key in Hk as (d & Hin & ->).
      exists d. split; [|done].
      unfold calories_per_day in Hrows. injection Hrows as <-.
      apply list_elem_of_fmap in Hin as (d' & [= <- _] & Hd').
      apply elem_of_remove_dups, list_elem_of_fmap in Hd' as (row & -> & Hrow).
      apply list_elem_of_filter in Hrow as [_ Hrow].
      apply elem_of_join in Hrow as (Hlog & _). by apply Hdates.
  - intros backend_sum Hsum.
    assert (get_calendar_data "ann" None backend_sum logged_db
            = (Return {[ "2024-03-09" := backend_sum day [10%float; 15%float] ]},
               logged_db)) as -> by (by vm_compute).
    by rewrite Hsum.
Qed.

Lemma calendar_sums_per_day_witness :
  ∃ calendar_data : gmap string float,
    get_calendar_data "ann" None sum_in_order logged_db = (Return calendar_data, logged_db)
    ∧ (∀ d, Date.valid d →
         calendar_data !! Date.isoformat d = day_total sum_in_order logged_db 1 d)
    ∧ (∀ d, Date.valid d →
         (calendar_data !! Date.isoformat d = None ↔
          ∀ l, l ∈ food_logs logged_db → FoodLog.user_id l = 1 →
               FoodLog.date l = d → referenced_calories logged_db l = None))
    ∧ (∀ k v, calendar_data !! k = Some v →
         ∃ d, Date.valid d ∧ k = Date.isoformat d).
Proof.
  apply (proj1 calendar_sums_per_day sum_in_order "ann" logged_db (User.mk 1 "ann" "pw")).
  - apply (bool_decide_unpack _). by vm_compute.
  - apply Forall_forall, (bool_decide_unpack _). by vm_compute.
  - reflexivity.
Defined.

(** Ann has one log, on [day], that refers to an item whose calories are
    [NULL]: the calendar has no entry at all, although [day] has a log,
    whatever the summation.  The same happens when the log refers to item
    42, which does not exist. *)
Lemma calendar_omits_day_with_dangling_log :
  ((FoodLog.date <$> filter (λ l, FoodLog.user_id l = 1) (food_logs null_db)) = [day]
   ∧ (FoodItem.calories <$> food_items null_db) = [None]
   ∧ ∀ backend_sum,
       get_calendar_data "ann" None backend_sum null_db = (Return ∅, null_db))
  ∧ ((FoodLog.date <$> filter (λ l, FoodLog.user_id l = 1) (food_logs dangling_db)) = [day]
     ∧ ∀ backend_sum,
         get_calendar_data "ann" None backend_sum dangling_db = (Return ∅, dangling_db)).
Proof. repeat split; by vm_compute. Qed.

(** C10: a log whose food item identifier matches no food item contributes
    nothing to the calendar aggregate: the aggregate is the one of the store
    without that log; and a date on which all the logs of the user are of
    that kind is absent from the mapping. *)
Theorem calendar_skips_dangling_logs :
  (∀ (username : string) (query_error : option string)
     (backend_sum : Date.t → list float → float) (db : DB)
     (before after : list FoodLog.t) (log : FoodLog.t),
      food_logs db = before ++ log :: after →
      (∀ i, i ∈ food_items db → FoodItem.id i ≠ FoodLog.food_item_id log) →
      (get_calendar_data username query_error backend_sum db).1
      = (get_calendar_data username query_error backend_sum
           (mkDB (users db) (food_items db) (before ++ after)
              (users_id_seq db) (food_items_id_seq db) (food_logs_id_seq db))).1)
  ∧ (∀ (username : string) (backend_sum : Date.t → list float → float) (db : DB)
       (user : User.t) (d : Date.t),
       (∀ l, l ∈ food_logs db → Date.valid (FoodLog.date l)) →
       Date.valid d →
       head (filter (λ u, User.username u = username) (users db)) = Some user →
       (∀ l, l ∈ food_logs db → FoodLog.user_id l = User.id user → FoodLog.date l = d →
             ∀ i, i ∈ food_items db → FoodItem.id i ≠ FoodLog.food_item_id l) →
       ∃ calendar_data : gmap string float,
         get_calendar_data username None backend_sum db = (Return calendar_data, db)
         ∧ calendar_data !! Date.isoformat d = None).
Proof.
  split.
  - intros username query_error backend_sum db before after log Hlogs Hdangling.
    unfold get_calendar_data, bind, query_first. simpl users.
    destruct (head _) as [user|]; [|done].
    destruct query_error; [done|].
    unfold calories_per_day, user_rows. simpl.
    by rewrite Hlogs, (join_dangling _ _ _ _ Hdangling).
  - intros username backend_sum db user d Hdates Hd Huser Hdangling.
    destruct (get_calendar_data_found backend_sum _ _ _ Huser) as (rows & Hrows & Hrun).
    exists (calendar_dict rows). split; [done|].
    rewrite (calendar_lookup backend_sum db user rows d Hdates Hd Hrows).
    unfold total_calories. rewrite filter_none; [done|].
    intros [l i] Hrow Hdate.
    apply list_elem_of_filter in Hrow as [Huid Hrow].
    apply elem_of_join in Hrow as (Hl & Hi & Hid). simpl in *.
    by apply (Hdangling l Hl Huid Hdate i Hi).
Qed.

Lemma calendar_skips_dangling_logs_witness :
  ∃ calendar_data : gmap string float,
    get_calendar_data "ann" None sum_in_order dangling_db
      = (Return calendar_data, dangling_db)
    ∧ calendar_data !! Date.isoformat day = None.
Proof.
  apply (proj2 calendar_skips_dangling_logs "ann" sum_in_order dangling_db
           (User.mk 1 "ann" "pw") day).
  - apply Forall_forall, (bool_decide_unpack _). by vm_compute.
  - apply (bool_decide_unpack _). by vm_compute.
  - reflexivity.
  - intros l Hl _ _ i Hi. by apply elem_of_nil in Hi.
Defined.

(** ** Consistency is an invariant of the handlers *)

Lemma NoDup_fmap_filter {A K} (f : A → K) (P : A → Prop) `{∀ x, Decision (P x)}
    (l : list A) :
  NoDup (f <$> l) → NoDup (f <$> filter P l).
Proof.
  induction l as [|x l IH]; [done|].
  rewrite fmap_cons, NoDup_cons. intros [Hx Hl].
  rewrite filter_cons. case_decide; [|by apply IH].
  rewrite fmap_cons. apply NoDup_cons. split; [|by apply IH].
  intros (y & Heq & Hy)%list_elem_of_fmap. apply Hx. rewrite Heq.
  apply list_elem_of_fmap_2. by apply list_elem_of_filter in Hy as [_ Hy].
Qed.

(** A key drawn from the sequence is new in the table. *)
Lemma NoDup_fmap_snoc_seq {A} (f : A → Z) (l : list A) (x : A) :
  NoDup (f <$> l) → (∀ y, y ∈ l → f y < f x) → NoDup (f <$> l ++ [x]).
Proof.
  intros Hl Hbelow. rewrite fmap_app. apply NoDup_app. split; [done|]. split.
  - intros k (y & -> & Hy)%list_elem_of_fmap Hk.
    apply list_elem_of_singleton in Hk. specialize (Hbelow y Hy). lia.
  - apply NoDup_singleton.
Qed.

Lemma elem_of_snoc_below {A} (f : A → Z) (l : list A) (x y : A) (k : Z) :
  (∀ z, z ∈ l → f z < k) → f x = k → y ∈ l ++ [x] → f y < k + 1.
Proof.
  intros Hbelow Hx [Hy| ->%list_elem_of_singleton]%elem_of_app.
  - specialize (Hbelow y Hy). lia.
  - lia.
Qed.

Lemma login_wf (r : LoginRequest.t) (db : DB) : wf db → wf (login r db).2.
Proof.
  intros [Hu Hi Hl Hus His Hls Hnames Hdates].
  unfold login, bind, query_first.
  destruct (head _) as [user|] eqn:Huser.
  { by destruct (decide _). }
  simpl. split; simpl; try done.
  - by apply NoDup_fmap_snoc_seq.
  - intros u. by apply (elem_of_snoc_below User.id).
  - rewrite fmap_app. apply NoDup_app. split; [done|]. split; [|apply NoDup_singleton].
    intros name (u & -> & Hin)%list_elem_of_fmap Heq%list_elem_of_singleton.
    by apply (head_filter_None _ _ Huser u).
Qed.

Lemma analyze_and_find_food_wf (str_lower : string → string)
    (r : FoodAnalysisRequest.t) (parsing_reply : string + ParsedResult.t)
    (nutrition_reply : string + NutritionData.t) (db : DB) :
  wf db → wf (analyze_and_find_food str_lower r parsing_reply nutrition_reply db).2.
Proof.
  intros Hwf. pose proof Hwf as [Hu Hi Hl Hus His Hls Hnames Hdates].
  unfold analyze_and_find_food, bind, query_first, lift.
  destruct (head _) as [user|]; [|done].
  destruct parsing_reply as [e|parsed_result]; [done|].
  destruct (py_float _) as [q|e]; [|done].
  destruct (head _) as [existing_item|]; [done|].
  destruct nutrition_reply as [e|nutrition_data]; [done|].
  simpl. split; simpl; try done.
  - by apply NoDup_fmap_snoc_seq.
  - intros i. by apply (elem_of_snoc_below FoodItem.id).
Qed.

Lemma create_food_log_wf (username : string) (log : FoodLogCreate.t) (db : DB) :
  Date.valid (FoodLogCreate.date log) → wf db → wf (create_food_log username log db).2.
Proof.
  intros Hdate Hwf. pose proof Hwf as [Hu Hi Hl Hus His Hls Hnames Hdates].
  unfold create_food_log, bind, query_first.
  destruct (head _) as [user|]; [|done].
  simpl. split; simpl; try done.
  - by apply NoDup_fmap_snoc_seq.
  - intros l. by apply (elem_of_snoc_below FoodLog.id).
  - intros l [Hin| ->%list_elem_of_singleton]%elem_of_app; [by apply Hdates|done].
Qed.

Lemma delete_log_wf (log_id : Z) (db : DB) : wf db → wf (delete_log log_id db).2.
Proof.
  intros Hwf. pose proof Hwf as [Hu Hi Hl Hus His Hls Hnames Hdates].
  unfold delete_log, bind, query_first.
  destruct (head _) as [log_to_delete|]; [|done].
  simpl. split; simpl; try done.
  - by apply NoDup_fmap_filter.
  - intros l [_ Hin]%list_elem_of_filter. by apply Hls.
  - intros l [_ Hin]%list_elem_of_filter. by apply Hdates.
Qed.

(** X18: every store that validated requests produce from the empty one is
    consistent: the primary keys of the three tables are unique and below
    their sequences, usernames are unique, and every stored date is a date. *)
Lemma reachable_wf (str_lower : string → string) (db : DB) :
  reachable str_lower db → wf db.
Proof.
  induction 1 as [|r db Hreach IH Hvalid].
  - split; simpl; try apply NoDup_nil_2; intros x Hx; by apply elem_of_nil in Hx.
  - destruct r; simpl.
    + by apply login_wf.
    + by apply analyze_and_find_food_wf.
    + by apply create_food_log_wf.
    + by apply delete_log_wf.
Qed.

(** * Further properties of the handlers *)

(** ** What a request can change *)

Lemma prefix_snoc {A} (l : list A) (x : A) : l `prefix_of` l ++ [x].
Proof. by apply prefix_app_r. Qed.

(** X1: users and food items are append-only.  Whatever the request and its
    outcome, the rows of [users] and [food_items] stay where and what they
    were (no password or nutrient is ever rewritten), each table grows by at
    most one row, and [food_logs] either keeps its rows and grows by at most
    one, or -- for a deletion -- loses exactly the rows with the given
    identifier. *)
Theorem store_append_only (str_lower : string → string) (r : request) (db : DB) :
  let db' := serve str_lower r db in
  users db `prefix_of` users db'
  ∧ food_items db `prefix_of` food_items db'
  ∧ match r with
    | DeleteLog log_id =>
        food_logs db' = filter (λ l, FoodLog.id l ≠ log_id) (food_logs db)
    | _ => food_logs db `prefix_of` food_logs db'
    end
  ∧ (length (users db') ≤ length (users db) + 1)%nat
  ∧ (length (food_items db') ≤ length (food_items db) + 1)%nat
  ∧ (length (food_logs db') ≤ length (food_logs db) + 1)%nat.
Proof.
  destruct r as [request|request parsing_reply nutrition_reply|username log|log_id];
    simpl.
  - unfold login, bind, query_first.
    destruct (head _) as [user|].
    + destruct (decide _); simpl; repeat split; (done || lia).
    + simpl. rewrite length_app. simpl.
      repeat split; try done; try lia. apply prefix_snoc.
  - unfold analyze_and_find_food, bind, query_first, lift.
    destruct (head _) as [user|]; [|simpl; repeat split; (done || lia)].
    destruct parsing_reply as [e|parsed_result]; [simpl; repeat split; (done || lia)|].
    destruct (py_float _) as [q|e]; [|simpl; repeat split; (done || lia)].
    destruct (head _) as [existing_item|]; [simpl; repeat split; (done || lia)|].
    destruct nutrition_reply as [e|nutrition_data]; [simpl; repeat split; (done || lia)|].
    simpl. rewrite length_app. simpl.
    repeat split; try done; try lia. apply prefix_snoc.
  - unfold create_food_log, bind, query_first.
    destruct (head _) as [user|]; [|simpl; repeat split; (done || lia)].
    simpl. rewrite length_app. simpl.
    repeat split; try done; try lia. apply prefix_snoc.
  - unfold delete_log, bind, query_first.
    destruct (head _) as [log_to_delete|] eqn:Hlog.
    + apply head_filter_holds in Hlog as [<- _]. simpl.
      pose proof (length_filter (λ l, FoodLog.id l ≠ FoodLog.id log_to_delete)
                    (food_logs db)).
      repeat split; try done; lia.
    + simpl. rewrite filter_all.
      * repeat split; (done || lia).
      * intros l Hl Heq. by apply (head_filter_None _ _ Hlog l).
Qed.

(** X2: a write handler that raises has stored nothing: the store it leaves
    is the store it was given. *)
Theorem failure_stores_nothing :
  (∀ request db db' e, login request db = (Raise e, db') → db' = db)
  ∧ (∀ str_lower request parsing_reply nutrition_reply db db' e,
       analyze_and_find_food str_lower request parsing_reply nutrition_reply db
         = (Raise e, db') → db' = db)
  ∧ (∀ username log db db' e,
       create_food_log username log db = (Raise e, db') → db' = db)
  ∧ (∀ log_id db db' e, delete_log log_id db = (Raise e, db') → db' = db).
Proof.
  repeat split.
  - intros request db db' e. unfold login, bind, query_first.
    destruct (head _) as [user|]; [|discriminate].
    destruct (decide _); [|discriminate]. by intros [= _ <-].
  - intros str_lower request parsing_reply nutrition_reply db db' e.
    unfold analyze_and_find_food, bind, query_first, lift.
    destruct (head _) as [user|]; [|by intros [= _ <-]].
    destruct parsing_reply as [msg|parsed_result]; [by intros [= _ <-]|].
    destruct (py_float _) as [q|e']; [|by intros [= _ <-]].
    destruct (head _) as [existing_item|]; [discriminate|].
    destruct nutrition_reply as [msg|nutrition_data]; [by intros [= _ <-]|discriminate].
  - intros username log db db' e. unfold create_food_log, bind, query_first.
    destruct (head _) as [user|]; [discriminate|]. by intros [= _ <-].
  - intros log_id db db' e. unfold delete_log, bind, query_first.
    destruct (head _) as [log_to_delete|]; [discriminate|]. by intros [= _ <-].
Qed.

(** ** Registration and login *)

(** X3: registration followed by login.  After a login has created a user,
    a login with the same username and password succeeds and changes
    nothing, and a login with that username and any other password raises
    the 401 exception and changes nothing. *)
Theorem login_after_registration (request : LoginRequest.t) (db : DB) :
  (∀ u, u ∈ users db → User.username u ≠ LoginRequest.username request) →
  ∃ db1,
    login request db = (Return (mkStatus "success" "User created."), db1)
    ∧ login request db1 = (Return (mkStatus "success" "Login successful."), db1)
    ∧ ∀ password,
        password ≠ LoginRequest.password request →
        login (LoginRequest.mk (LoginRequest.username request) password) db1
          = (Raise (HTTPException 401 "Incorrect password"), db1).
Proof.
  destruct request as [username pw]. simpl. intros Hnew.
  set (db1 := mkDB (users db ++ [User.mk (users_id_seq db) username pw])
                (food_items db) (food_logs db) (users_id_seq db + 1)
                (food_items_id_seq db) (food_logs_id_seq db)).
  exists db1. split.
  { unfold login, bind, query_first. simpl. by rewrite filter_none. }
  assert (∀ password,
            login (LoginRequest.mk username password) db1
            = (if decide (pw ≠ password)
               then raise (HTTPException 401 "Incorrect password")
               else ret (mkStatus "success" "Login successful.")) db1) as Hagain.
  { intros password. unfold login, bind, query_first. simpl.
    rewrite filter_app, filter_none by done.
    by rewrite filter_cons_True. }
  split.
  - rewrite (Hagain pw). by rewrite decide_False by (by intros []).
  - intros password Hpw. rewrite (Hagain password).
    by rewrite decide_True by congruence.
Qed.

Lemma login_after_registration_witness :
  ∃ db1,
    login bob milk_db = (Return (mkStatus "success" "User created."), db1)
    ∧ login bob db1 = (Return (mkStatus "success" "Login successful."), db1)
    ∧ ∀ password,
        password ≠ LoginRequest.password bob →
        login (LoginRequest.mk (LoginRequest.username bob) password) db1
          = (Raise (HTTPException 401 "Incorrect password"), db1).
Proof.
  apply (login_after_registration bob milk_db).
  apply Forall_forall, (bool_decide_unpack _). by vm_compute.
Defined.

(** ** The item an analysis answers with *)

(** X4: whenever an analysis answers, the item of the answer is a row of the
    store it leaves and belongs to the user of the request.  With [new]
    unset the store is unchanged and the item carries the lower-cased
    extracted name; with [new] set no item of the user carried that name,
    and the item was appended under the next identifier of the sequence. *)
Theorem analyze_item_belongs_to_user (str_lower : string → string)
    (request : FoodAnalysisRequest.t) (parsed_result : ParsedResult.t)
    (nutrition_reply : string + NutritionData.t) (db db' : DB)
    (response : Analysis.t) :
  analyze_and_find_food str_lower request (inr parsed_result) nutrition_reply db
    = (Return response, db') →
  let item_name_raw := str_lower (default "" (ParsedResult.item_name parsed_result)) in
  ∃ user,
    head (filter (λ u, User.username u = FoodAnalysisRequest.username request) (users db))
      = Some user
    ∧ FoodItem.user_id (Analysis.item response) = User.id user
    ∧ Analysis.item response ∈ food_items db'
    ∧ if Analysis.new response
      then (∀ i, i ∈ food_items db → FoodItem.user_id i = User.id user →
                 FoodItem.name i ≠ item_name_raw)
           ∧ food_items db' = food_items db ++ [Analysis.item response]
           ∧ FoodItem.id (Analysis.item response) = food_items_id_seq db
      else db' = db ∧ FoodItem.name (Analysis.item response) = item_name_raw.
Proof.
  intros Hrun item_name_raw.
  destruct (head (filter (λ u, User.username u = FoodAnalysisRequest.username request)
                    (users db))) as [user|] eqn:Huser;
    [|by unfold analyze_and_find_food, bind, query_first in Hrun; rewrite Huser in Hrun].
  destruct (py_float (default (PyFloat 1) (ParsedResult.quantity parsed_result)))
    as [q|e] eqn:Hq;
    [|by unfold analyze_and_find_food, bind, query_first, lift in Hrun;
         rewrite Huser, Hq in Hrun].
  rewrite (analyze_found _ _ _ _ _ _ _ Huser Hq) in Hrun. cbv zeta in Hrun.
  fold item_name_raw in Hrun.
  exists user. split; [done|].
  destruct (head (filter _ (food_items db))) as [existing_item|] eqn:Hexisting.
  - injection Hrun as <- <-. simpl.
    apply head_filter_holds in Hexisting as [[Howner Hname] Hin]. done.
  - destruct nutrition_reply as [e|nutrition_data]; [discriminate|].
    injection Hrun as <- <-. simpl. split; [done|]. split.
    { apply elem_of_app. right. left. }
    split; [|done].
    intros i Hi Howner Hname. by apply (head_filter_None _ _ Hexisting i).
Qed.

Lemma analyze_item_belongs_to_user_witness :
  ∃ user,
    head (filter (λ u, User.username u = "ann") (users ann_db)) = Some user
    ∧ 1 = User.id user
    ∧ FoodItem.mk 1 "milk" (Some 5%float) (Some 3.5%float) (Some 5%float)
        (Some 1%float) (Some 0%float) "100ml" 1 ∈ food_items milk_db
    ∧ ((∀ i, i ∈ food_items ann_db → FoodItem.user_id i = User.id user →
             FoodItem.name i ≠ lower "milk")
       ∧ food_items milk_db
           = food_items ann_db
               ++ [FoodItem.mk 1 "milk" (Some 5%float) (Some 3.5%float) (Some 5%float)
                     (Some 1%float) (Some 0%float) "100ml" 1]
       ∧ 1 = food_items_id_seq ann_db).
Proof.
  exact (analyze_item_belongs_to_user lower milk_request milk_parsed
           (inr milk_nutrition) ann_db milk_db
           (Analysis.mk (FoodItem.mk 1 "milk" (Some 5%float) (Some 3.5%float)
                           (Some 5%float) (Some 1%float) (Some 0%float) "100ml" 1)
              5%float true)
           eq_refl).
Defined.

(** X5: a known food costs no nutrition request.  When the user already
    owns an item with the lower-cased extracted name, the answer is the same
    whatever the nutrition reply is (a failure included): one of the user's
    items of that name with [new] unset, and the store is unchanged. *)
Theorem analyze_known_item_ignores_nutrition (str_lower : string → string)
    (request : FoodAnalysisRequest.t) (parsed_result : ParsedResult.t)
    (db : DB) (user : User.t) (item : FoodItem.t) (q : float) :
  head (filter (λ u, User.username u = FoodAnalysisRequest.username request) (users db))
    = Some user →
  py_float (default (PyFloat 1) (ParsedResult.quantity parsed_result)) = Return q →
  item ∈ food_items db →
  FoodItem.user_id item = User.id user →
  FoodItem.name item = str_lower (default "" (ParsedResult.item_name parsed_result)) →
  ∃ existing_item,
    existing_item ∈ food_items db
    ∧ FoodItem.user_id existing_item = User.id user
    ∧ FoodItem.name existing_item = FoodItem.name item
    ∧ ∀ nutrition_reply,
        analyze_and_find_food str_lower request (inr parsed_result) nutrition_reply db
        = (Return (Analysis.mk existing_item
                     (normalize q (str_lower (default "unit"
                                                (ParsedResult.unit parsed_result)))).1
                     false), db).
Proof.
  intros Huser Hq Hin Howner Hname.
  destruct (head (filter (λ i, FoodItem.user_id i = User.id user
                               ∧ FoodItem.name i
                                 = str_lower (default "" (ParsedResult.item_name parsed_result)))
                    (food_items db))) as [existing_item|] eqn:Hexisting.
  - exists existing_item.
    pose proof (head_filter_holds _ _ _ Hexisting) as [[Ho Hn] Hi].
    repeat split; [done|done|congruence|].
    intros nutrition_reply.
    rewrite (analyze_found _ _ _ nutrition_reply _ _ _ Huser Hq). cbv zeta.
    by rewrite Hexisting.
  - by destruct (head_filter_None _ _ Hexisting item Hin).
Qed.

Lemma analyze_known_item_ignores_nutrition_witness :
  ∃ existing_item,
    existing_item ∈ food_items milk_db
    ∧ FoodItem.user_id existing_item = 1
    ∧ FoodItem.name existing_item = "milk"
    ∧ ∀ nutrition_reply,
        analyze_and_find_food lower milk_request (inr milk_parsed) nutrition_reply milk_db
        = (Return (Analysis.mk existing_item (normalize 500 (lower "ml")).1 false), milk_db).
Proof.
  apply (analyze_known_item_ignores_nutrition lower milk_request milk_parsed milk_db
           (User.mk 1 "ann" "pw")
           (FoodItem.mk 1 "milk" (Some 5%float) (Some 3.5%float) (Some 5%float)
              (Some 1%float) (Some 0%float) "100ml" 1) 500%float).
  - reflexivity.
  - reflexivity.
  - left.
  - reflexivity.
  - reflexivity.
Defined.

(** X6: the conversion of the quantity is not guarded.  For a known user
    and a decoded parsing reply whose quantity [float] rejects, the handler
    raises that exception itself -- an [OverflowError], not the 500
    exception of the [try] blocks -- before any item is looked up, whatever
    the nutrition reply, and the store is unchanged. *)
Theorem analyze_quantity_overflow (str_lower : string → string)
    (request : FoodAnalysisRequest.t) (parsed_result : ParsedResult.t)
    (nutrition_reply : string + NutritionData.t) (db : DB) (user : User.t) (e : exn) :
  head (filter (λ u, User.username u = FoodAnalysisRequest.username request) (users db))
    = Some user →
  py_float (default (PyFloat 1) (ParsedResult.quantity parsed_result)) = Raise e →
  e = OverflowError
  ∧ (∃ z, ParsedResult.quantity parsed_result = Some (PyInt z)
          ∧ is_infinity (float_of_Z z) = true)
  ∧ analyze_and_find_food str_lower request (inr parsed_result) nutrition_reply db
    = (Raise OverflowError, db).
Proof.
  intros Huser Hq.
  assert (e = OverflowError
          ∧ ∃ z, ParsedResult.quantity parsed_result = Some (PyInt z)
                 ∧ is_infinity (float_of_Z z) = true) as [-> Hz].
  { destruct (ParsedResult.quantity parsed_result) as [[z|f]|]; simpl in Hq;
      try discriminate.
    destruct (is_infinity (float_of_Z z)) eqn:Hinf; [|discriminate].
    injection Hq as <-. split; [done|]. by exists z. }
  repeat split; [done|].
  unfold analyze_and_find_food, bind, query_first, lift.
  by rewrite Huser, Hq.
Qed.

Lemma analyze_quantity_overflow_witness :
  OverflowError = OverflowError
  ∧ (∃ z, ParsedResult.quantity huge_parsed = Some (PyInt z)
          ∧ is_infinity (float_of_Z z) = true)
  ∧ analyze_and_find_food lower (FoodAnalysisRequest.mk "a lot of rice" "ann")
      (inr huge_parsed) (inl "unused") ann_db
    = (Raise OverflowError, ann_db).
Proof.
  apply (analyze_quantity_overflow lower (FoodAnalysisRequest.mk "a lot of rice" "ann")
           huge_parsed (inl "unused") ann_db (User.mk 1 "ann" "pw") OverflowError).
  - reflexivity.
  - by vm_compute.
Defined.

(** Ann's milk is found again under "MILK", with the service down. *)
Lemma analyze_again_finds_item_witness :
  ∃ response2,
    analyze_and_find_food lower (FoodAnalysisRequest.mk "a glass of MILK" "ann")
      (inr (ParsedResult.mk None None (Some "MILK"))) (inl "service down") milk_db
      = (Return response2, milk_db)
    ∧ Analysis.item response2
      = FoodItem.mk 1 "milk" (Some 5%float) (Some 3.5%float) (Some 5%float)
          (Some 1%float) (Some 0%float) "100ml" 1
    ∧ Analysis.new response2 = false.
Proof.
  exact (analyze_again_finds_item lower milk_request
           (FoodAnalysisRequest.mk "a glass of MILK" "ann")
           milk_parsed (ParsedResult.mk None None (Some "MILK"))
           milk_nutrition (inl "service down") ann_db milk_db
           (Analysis.mk (FoodItem.mk 1 "milk" (Some 5%float) (Some 3.5%float)
                           (Some 5%float) (Some 1%float) (Some 0%float) "100ml" 1)
              5%float true)
           1%float eq_refl eq_refl eq_refl eq_refl eq_refl eq_refl).
Defined.

(** ** Logs: creation, retrieval, deletion *)

Lemma load_food_items_run (logs : list FoodLog.t) (db : DB) :
  load_food_items logs db = (Return (with_food_item db <$> logs), db).
Proof.
  induction logs as [|log logs IH]; [done|].
  simpl. unfold bind at 1 2. unfold load_food_item, bind, query_first, ret.
  by rewrite IH.
Qed.

Lemma get_logs_for_date_found (username : string) (log_date : Date.t) (db : DB)
    (user : User.t) :
  head (filter (λ u, User.username u = username) (users db)) = Some user →
  get_logs_for_date username log_date db
  = (Return (with_food_item db
               <$> filter (λ l, FoodLog.user_id l = User.id user
                                ∧ FoodLog.date l = log_date) (food_logs db)), db).
Proof.
  intros Huser. unfold get_logs_for_date, bind, query_first, query_all.
  rewrite Huser. apply load_food_items_run.
Qed.

(** X8: for a known username the retrieval by date returns, in storage
    order, exactly the logs of the user found that bear the date, each with
    the food item its identifier selects (none for a dangling identifier);
    a date without logs gives the empty list, not an error.  For an unknown
    username it raises the 404 exception. *)
Theorem get_logs_for_date_outcome (username : string) (log_date : Date.t) (db : DB) :
  (∀ user,
      head (filter (λ u, User.username u = username) (users db)) = Some user →
      ∃ records,
        get_logs_for_date username log_date db = (Return records, db)
        ∧ FoodLogORM.row <$> records
          = filter (λ l, FoodLog.user_id l = User.id user ∧ FoodLog.date l = log_date)
              (food_logs db)
        ∧ (∀ r, r ∈ records →
             FoodLogORM.food_item r
             = head (filter (λ i, FoodItem.id i = FoodLog.food_item_id (FoodLogORM.row r))
                       (food_items db)))
        ∧ ((∀ l, l ∈ food_logs db → FoodLog.user_id l = User.id user →
                 FoodLog.date l ≠ log_date) → records = []))
  ∧ ((∀ u, u ∈ users db → User.username u ≠ username) →
     get_logs_for_date username log_date db
       = (Raise (HTTPException 404 "User not found"), db)).
Proof.
  split.
  - intros user Huser. eexists. split; [by apply get_logs_for_date_found|].
    split; [|split].
    + rewrite <- list_fmap_compose. apply list_fmap_id.
    + by intros r (l & -> & _)%list_elem_of_fmap.
    + intros Hnone. rewrite filter_none; [done|].
      intros l Hl [Hu Hd]. by apply (Hnone l).
  - intros Hunknown. unfold get_logs_for_date, bind, query_first.
    by rewrite filter_none.
Qed.

Lemma get_logs_for_date_outcome_witness :
  ∃ records,
    get_logs_for_date "ann" day logged_db = (Return records, logged_db)
    ∧ FoodLogORM.row <$> records
      = filter (λ l, FoodLog.user_id l = 1 ∧ FoodLog.date l = day) (food_logs logged_db)
    ∧ (∀ r, r ∈ records →
         FoodLogORM.food_item r
         = head (filter (λ i, FoodItem.id i = FoodLog.food_item_id (FoodLogORM.row r))
                   (food_items logged_db)))
    ∧ ((∀ l, l ∈ food_logs logged_db → FoodLog.user_id l = 1 →
             FoodLog.date l ≠ day) → records = []).
Proof.
  exact (proj1 (get_logs_for_date_outcome "ann" day logged_db)
           (User.mk 1 "ann" "pw") eq_refl).
Defined.

(** X9: a log that has just been created is read back.  For a known user,
    the retrieval for the date of the payload returns, after the creation,
    what it returned before followed by the very record the creation
    returned. *)
Theorem create_food_log_then_get_logs (username : string) (log : FoodLogCreate.t)
    (db : DB) (user : User.t) :
  head (filter (λ u, User.username u = username) (users db)) = Some user →
  ∃ record db' earlier,
    create_food_log username log db = (Return record, db')
    ∧ get_logs_for_date username (FoodLogCreate.date log) db = (Return earlier, db)
    ∧ get_logs_for_date username (FoodLogCreate.date log) db'
      = (Return (earlier ++ [record]), db').
Proof.
  intros Huser.
  set (db_log := FoodLog.mk (food_logs_id_seq db) (FoodLogCreate.date log)
                   (FoodLogCreate.meal_type log) (FoodLogCreate.quantity log)
                   (User.id user) (FoodLogCreate.food_item_id log)).
  set (db' := mkDB (users db) (food_items db) (food_logs db ++ [db_log])
                (users_id_seq db) (food_items_id_seq db) (food_logs_id_seq db + 1)).
  exists (with_food_item db' db_log), db'. eexists. split; [|split].
  - unfold create_food_log, bind, query_first, add_food_log, load_food_item.
    by rewrite Huser.
  - by apply get_logs_for_date_found.
  - rewrite (get_logs_for_date_found username _ db' user Huser). simpl.
    rewrite filter_app, filter_cons_True by done.
    by rewrite fmap_app.
Qed.

Lemma create_food_log_then_get_logs_witness :
  ∃ record db' earlier,
    create_food_log "ann" (FoodLogCreate.mk day "dinner" 1 1) logged_db
      = (Return record, db')
    ∧ get_logs_for_date "ann" day logged_db = (Return earlier, logged_db)
    ∧ get_logs_for_date "ann" day db' = (Return (earlier ++ [record]), db').
Proof.
  exact (create_food_log_then_get_logs "ann" (FoodLogCreate.mk day "dinner" 1 1)
           logged_db (User.mk 1 "ann" "pw") eq_refl).
Defined.

(** X10: creating a log and deleting it by the identifier of the returned
    record restores the three tables; only the sequence of log identifiers
    has advanced.  (The identifiers in the table are below the sequence, as
    in every reachable store.) *)
Theorem create_food_log_then_delete (username : string) (log : FoodLogCreate.t)
    (db : DB) (user : User.t) :
  head (filter (λ u, User.username u = username) (users db)) = Some user →
  (∀ l, l ∈ food_logs db → FoodLog.id l < food_logs_id_seq db) →
  ∃ record db1,
    create_food_log username log db = (Return record, db1)
    ∧ delete_log (FoodLog.id (FoodLogORM.row record)) db1
      = (Return (mkStatus "success" "Log deleted"),
         mkDB (users db) (food_items db) (food_logs db)
           (users_id_seq db) (food_items_id_seq db) (food_logs_id_seq db + 1)).
Proof.
  intros Huser Hseq. do 2 eexists. split.
  - unfold create_food_log, bind, query_first, add_food_log, load_food_item.
    rewrite Huser. reflexivity.
  - simpl. unfold delete_log, bind, query_first, delete_food_log. simpl.
    rewrite filter_app, filter_none, filter_cons_True by
      (done || (intros l Hl Heq; specialize (Hseq l Hl); lia)).
    simpl. do 2 f_equal.
    rewrite filter_app, filter_cons_False by (by intros []).
    rewrite filter_all, app_nil_r; [done|].
    intros l Hl Heq. specialize (Hseq l Hl). lia.
Qed.

Lemma create_food_log_then_delete_witness :
  ∃ record db1,
    create_food_log "ann" (FoodLogCreate.mk day "dinner" 1 1) logged_db
      = (Return record, db1)
    ∧ delete_log (FoodLog.id (FoodLogORM.row record)) db1
      = (Return (mkStatus "success" "Log deleted"),
         mkDB (users logged_db) (food_items logged_db) (food_logs logged_db)
           (users_id_seq logged_db) (food_items_id_seq logged_db)
           (food_logs_id_seq logged_db + 1)).
Proof.
  apply (create_food_log_then_delete "ann" (FoodLogCreate.mk day "dinner" 1 1)
           logged_db (User.mk 1 "ann" "pw")).
  - reflexivity.
  - apply Forall_forall, (bool_decide_unpack _). by vm_compute.
Defined.

(** X11: a deleted identifier is gone.  After a deletion that succeeded, no
    log of the store carries the identifier, a second deletion of it raises
    the 404 exception, and no retrieval by date returns a record with it. *)
Theorem delete_log_then_gone (log_id : Z) (db db' : DB) (response : StatusMessage) :
  delete_log log_id db = (Return response, db') →
  (∀ l, l ∈ food_logs db' → FoodLog.id l ≠ log_id)
  ∧ delete_log log_id db' = (Raise (HTTPException 404 "Log not found"), db')
  ∧ ∀ username log_date records db'',
      get_logs_for_date username log_date db' = (Return records, db'') →
      ∀ r, r ∈ records → FoodLog.id (FoodLogORM.row r) ≠ log_id.
Proof.
  intros Hrun.
  assert (∀ l, l ∈ food_logs db' → FoodLog.id l ≠ log_id) as Hgone.
  { unfold delete_log, bind, query_first, delete_food_log in Hrun.
    destruct (head _) as [log_to_delete|] eqn:Hlog; [|discriminate].
    apply head_filter_holds in Hlog as [<- _].
    injection Hrun as _ <-. simpl.
    by intros l [Hne _]%list_elem_of_filter. }
  split; [done|]. split.
  - unfold delete_log, bind, query_first. by rewrite filter_none.
  - intros username log_date records db'' Hget r Hr.
    unfold get_logs_for_date, bind, query_first, query_all in Hget.
    destruct (head _) as [user|]; [|discriminate].
    rewrite load_food_items_run in Hget. injection Hget as <- _.
    apply list_elem_of_fmap in Hr as (l & -> & [_ Hl]%list_elem_of_filter).
    by apply Hgone.
Qed.

Lemma delete_log_then_gone_witness :
  let db' := (delete_log 1 logged_db).2 in
  (∀ l, l ∈ food_logs db' → FoodLog.id l ≠ 1)
  ∧ delete_log 1 db' = (Raise (HTTPException 404 "Log not found"), db')
  ∧ ∀ username log_date records db'',
      get_logs_for_date username log_date db' = (Return records, db'') →
      ∀ r, r ∈ records → FoodLog.id (FoodLogORM.row r) ≠ 1.
Proof.
  exact (delete_log_then_gone 1 logged_db _ (mkStatus "success" "Log deleted") eq_refl).
Defined.

(** ** The calendar and the logs *)

Lemma calendar_key_valid (backend_sum : Date.t → list float → float) (db : DB)
    (user : User.t) (rows : list (Date.t * option float)) (k : string) (v : float) :
  (∀ l, l ∈ food_logs db → Date.valid (FoodLog.date l)) →
  calories_per_day backend_sum user db = (Return rows, db) →
  calendar_dict rows !! k = Some v →
  ∃ d, Date.valid d ∧ k = Date.isoformat d.
Proof.
  intros Hdates Hrows Hk. apply calendar_dict_key in Hk as (d & Hin & ->).
  exists d. split; [|done].
  unfold calories_per_day in Hrows. injection Hrows as <-.
  apply list_elem_of_fmap in Hin as (d' & [= <- _] & Hd').
  apply elem_of_remove_dups, list_elem_of_fmap in Hd' as (row & -> & Hrow).
  apply list_elem_of_filter in Hrow as [_ Hrow].
  apply elem_of_join in Hrow as (Hlog & _). by apply Hdates.
Qed.

Lemma calendar_day_total (backend_sum : Date.t → list float → float) (db : DB)
    (user : User.t) (rows : list (Date.t * option float)) (d : Date.t) :
  NoDup (FoodItem.id <$> food_items db) →
  (∀ l, l ∈ food_logs db → Date.valid (FoodLog.date l)) →
  Date.valid d →
  calories_per_day backend_sum user db = (Return rows, db) →
  calendar_dict rows !! Date.isoformat d = day_total backend_sum db (User.id user) d.
Proof.
  intros Hkey Hdates Hd Hrows.
  rewrite (calendar_lookup backend_sum db user rows d Hdates Hd Hrows).
  by apply total_calories_day_total.
Qed.

(** Two dictionaries whose keys are ISO dates are equal when they agree on
    the ISO form of every date. *)
Lemma calendar_eq (m1 m2 : gmap string float) :
  (∀ k v, m1 !! k = Some v → ∃ d, Date.valid d ∧ k = Date.isoformat d) →
  (∀ k v, m2 !! k = Some v → ∃ d, Date.valid d ∧ k = Date.isoformat d) →
  (∀ d, Date.valid d → m1 !! Date.isoformat d = m2 !! Date.isoformat d) →
  m1 = m2.
Proof.
  intros Hk1 Hk2 Hagree. apply map_eq. intros k.
  destruct (m1 !! k) as [v1|] eqn:H1.
  - destruct (Hk1 k v1 H1) as (d & Hd & ->). by rewrite <- Hagree, H1.
  - destruct (m2 !! k) as [v2|] eqn:H2; [|done].
    destruct (Hk2 k v2 H2) as (d & Hd & ->). by rewrite <- H1, Hagree, H2.
Qed.

Lemma total_of_snoc (sum : list float → float) (xs : list float) (x : float) :
  total_of sum (xs ++ [x]) = Some (sum (xs ++ [x])).
Proof. by destruct xs. Qed.

Lemma omap_fmap {A B C} (f : B → option C) (g : A → B) (l : list A) :
  omap f (g <$> l) = omap (f ∘ g) l.
Proof. induction l as [|x l IH]; [done|]. csimpl. by rewrite IH. Qed.

(** X12: what a new log does to the calendar, the two calendars being
    summed by the same [backend_sum].  In a store with unique item keys and
    well-formed dates, creating a log whose item exists with a calorie value
    [c] appends the value [quantity * c] to the values of the log's date --
    the entry of that date becomes the backend's [SUM] of the former values
    of the date followed by [quantity * c] -- and leaves every other entry
    alone; creating a log whose item is missing or has no calorie value
    leaves the calendar as it was. *)
Theorem calendar_after_create_food_log (backend_sum : Date.t → list float → float)
    (username : string) (log : FoodLogCreate.t) (db : DB) (user : User.t) :
  NoDup (FoodItem.id <$> food_items db) →
  (∀ l, l ∈ food_logs db → Date.valid (FoodLog.date l)) →
  Date.valid (FoodLogCreate.date log) →
  head (filter (λ u, User.username u = username) (users db)) = Some user →
  let db' := (create_food_log username log db).2 in
  ∃ before after : gmap string float,
    get_calendar_data username None backend_sum db = (Return before, db)
    ∧ get_calendar_data username None backend_sum db' = (Return after, db')
    ∧ after
      = match head (filter (λ i, FoodItem.id i = FoodLogCreate.food_item_id log)
                      (food_items db)) ≫= FoodItem.calories with
        | Some c =>
            <[Date.isoformat (FoodLogCreate.date log) :=
                backend_sum (FoodLogCreate.date log)
                  (day_products db (User.id user) (FoodLogCreate.date log)
                     ++ [(FoodLogCreate.quantity log * c)%float])]> before
        | None => before
        end.
Proof.
  intros Hkey Hdates Hdate Huser.
  set (db_log := FoodLog.mk (food_logs_id_seq db) (FoodLogCreate.date log)
                   (FoodLogCreate.meal_type log) (FoodLogCreate.quantity log)
                   (User.id user) (FoodLogCreate.food_item_id log)).
  assert ((create_food_log username log db).2
          = mkDB (users db) (food_items db) (food_logs db ++ [db_log])
              (users_id_seq db) (food_items_id_seq db) (food_logs_id_seq db + 1)) as ->.
  { unfold create_food_log, bind, query_first, add_food_log, load_food_item.
    by rewrite Huser. }
  set (db' := mkDB _ _ _ _ _ _). cbv zeta.
  assert (∀ l, l ∈ food_logs db' → Date.valid (FoodLog.date l)) as Hdates'.
  { intros l [Hl| ->%list_elem_of_singleton]%elem_of_app; [by apply Hdates|done]. }
  destruct (get_calendar_data_found backend_sum username db user Huser)
    as (rows & Hrows & Hrun).
  destruct (get_calendar_data_found backend_sum username db' user Huser)
    as (rows' & Hrows' & Hrun').
  exists (calendar_dict rows), (calendar_dict rows'). split; [done|]. split; [done|].
  set (calories := head (filter (λ i, FoodItem.id i = FoodLogCreate.food_item_id log)
                           (food_items db)) ≫= FoodItem.calories).
  (* the totals of the new store, date by date *)
  assert (∀ d, day_total backend_sum db' (User.id user) d
               = if decide (FoodLogCreate.date log = d)
                 then match calories with
                      | Some c =>
                          Some (backend_sum d
                                  (day_products db (User.id user) d
                                     ++ [(FoodLogCreate.quantity log * c)%float]))
                      | None => day_total backend_sum db (User.id user) d
                      end
                 else day_total backend_sum db (User.id user) d) as Hday.
  { intros d. unfold day_total, day_products. simpl food_logs.
    rewrite filter_app, omap_app.
    change (referenced_calories db') with (referenced_calories db).
    destruct (decide (FoodLogCreate.date log = d)) as [Hd|Hd].
    - rewrite (filter_cons_True _ db_log) by done. simpl.
      change (referenced_calories db db_log) with calories.
      destruct calories as [c|]; simpl; [apply total_of_snoc|by rewrite app_nil_r].
    - rewrite (filter_cons_False _ db_log) by (by intros [_ ?]).
      by rewrite app_nil_r. }
  apply calendar_eq.
  - intros k v. by apply (calendar_key_valid backend_sum db' user rows').
  - intros k v Hk.
    destruct calories as [c|];
      [|by apply (calendar_key_valid backend_sum db user rows k v)].
    destruct (decide (Date.isoformat (FoodLogCreate.date log) = k)) as [<-|Hne].
    + by exists (FoodLogCreate.date log).
    + rewrite lookup_insert_ne in Hk by done.
      by apply (calendar_key_valid backend_sum db user rows k v).
  - intros d Hd.
    rewrite (calendar_day_total backend_sum db' user rows' d Hkey Hdates' Hd Hrows'), Hday.
    pose proof (calendar_day_total backend_sum db user rows) as Hbefore.
    destruct (decide (FoodLogCreate.date log = d)) as [<-|Hne].
    + destruct calories as [c|].
      * by rewrite lookup_insert_eq.
      * by rewrite (Hbefore _ Hkey Hdates Hdate Hrows).
    + destruct calories as [c|]; [|by rewrite (Hbefore _ Hkey Hdates Hd Hrows)].
      rewrite lookup_insert_ne; [by rewrite (Hbefore _ Hkey Hdates Hd Hrows)|].
      intros Heq. apply Hne. by apply isoformat_inj.
Qed.

Lemma calendar_after_create_food_log_witness :
  let db' := (create_food_log "ann" (FoodLogCreate.mk day "dinner" 1.5 1) logged_db).2 in
  ∃ before after : gmap string float,
    get_calendar_data "ann" None sum_in_reverse logged_db = (Return before, logged_db)
    ∧ get_calendar_data "ann" None sum_in_reverse db' = (Return after, db')
    ∧ after
      = match head (filter (λ i, FoodItem.id i = 1) (food_items logged_db))
              ≫= FoodItem.calories with
        | Some c =>
            <[Date.isoformat day :=
                sum_in_reverse day (day_products logged_db 1 day ++ [(1.5 * c)%float])]>
              before
        | None => before
        end.
Proof.
  apply (calendar_after_create_food_log sum_in_reverse "ann"
           (FoodLogCreate.mk day "dinner" 1.5 1) logged_db (User.mk 1 "ann" "pw")).
  - apply (bool_decide_unpack _). by vm_compute.
  - apply Forall_forall, (bool_decide_unpack _). by vm_compute.
  - apply (bool_decide_unpack _). by vm_compute.
  - reflexivity.
Defined.

(** X13: the calendar agrees with the logs.  In a store with unique item
    keys and well-formed dates, the entry of the calendar for a date is the
    backend's [SUM] of the calories a client reads off the records that the
    retrieval by date returns for that date (quantity times the calories of
    the embedded item, in the order of the records), and the date has no
    entry when no record has such a value. *)
Theorem calendar_agrees_with_logs (backend_sum : Date.t → list float → float)
    (username : string) (db : DB) (user : User.t) (d : Date.t) :
  NoDup (FoodItem.id <$> food_items db) →
  (∀ l, l ∈ food_logs db → Date.valid (FoodLog.date l)) →
  Date.valid d →
  head (filter (λ u, User.username u = username) (users db)) = Some user →
  ∃ (calendar_data : gmap string float) (records : list FoodLogORM.t),
    get_calendar_data username None backend_sum db = (Return calendar_data, db)
    ∧ get_logs_for_date username d db = (Return records, db)
    ∧ calendar_data !! Date.isoformat d
      = total_of (backend_sum d) (omap record_calories records).
Proof.
  intros Hkey Hdates Hd Huser.
  destruct (get_calendar_data_found backend_sum username db user Huser)
    as (rows & Hrows & Hrun).
  exists (calendar_dict rows). eexists. split; [done|].
  split; [by apply get_logs_for_date_found|].
  rewrite (calendar_day_total backend_sum db user rows d Hkey Hdates Hd Hrows).
  unfold day_total, day_products. by rewrite omap_fmap.
Qed.

Lemma calendar_agrees_with_logs_witness :
  ∃ (calendar_data : gmap string float) (records : list FoodLogORM.t),
    get_calendar_data "ann" None sum_in_order logged_db = (Return calendar_data, logged_db)
    ∧ get_logs_for_date "ann" day logged_db = (Return records, logged_db)
    ∧ calendar_data !! Date.isoformat day
      = total_of (sum_in_order day) (omap record_calories records).
Proof.
  apply (calendar_agrees_with_logs sum_in_order "ann" logged_db (User.mk 1 "ann" "pw") day).
  - apply (bool_decide_unpack _). by vm_compute.
  - apply Forall_forall, (bool_decide_unpack _). by vm_compute.
  - apply (bool_decide_unpack _). by vm_compute.
  - reflexivity.
Defined.

(** ** One user's writes and another user's reads *)

Lemma user_rows_snoc_other (db : DB) (log : FoodLog.t) (uid : Z) :
  FoodLog.user_id log ≠ uid →
  user_rows (mkDB (users db) (food_items db) (food_logs db ++ [log])
               (users_id_seq db) (food_items_id_seq db) (food_logs_id_seq db + 1)) uid
  = user_rows db uid.
Proof.
  intros Hother. unfold user_rows. simpl.
  unfold join at 1. rewrite bind_app. fold (join (food_logs db) (food_items db)).
  fold (join [log] (food_items db)).
  rewrite filter_app, (filter_none _ (join [log] _)); [by rewrite app_nil_r|].
  intros r (Hr%list_elem_of_singleton & _)%elem_of_join Hu. apply Hother.
  by rewrite <- Hr.
Qed.

(** X14: a log created by one user changes nothing of what the read
    endpoints return for a user with another identifier: the listing of food
    items, the logs of every date and the calendar are the same before and
    after. *)
Theorem create_food_log_of_another_user (username other : string)
    (log : FoodLogCreate.t) (db : DB) (user writer : User.t) :
  head (filter (λ u, User.username u = username) (users db)) = Some user →
  head (filter (λ u, User.username u = other) (users db)) = Some writer →
  User.id writer ≠ User.id user →
  let db' := (create_food_log other log db).2 in
  (get_user_food_items username db').1 = (get_user_food_items username db).1
  ∧ (∀ log_date,
       (get_logs_for_date username log_date db').1
       = (get_logs_for_date username log_date db).1)
  ∧ (∀ query_error backend_sum,
       (get_calendar_data username query_error backend_sum db').1
       = (get_calendar_data username query_error backend_sum db).1).
Proof.
  intros Huser Hwriter Hother.
  set (db_log := FoodLog.mk (food_logs_id_seq db) (FoodLogCreate.date log)
                   (FoodLogCreate.meal_type log) (FoodLogCreate.quantity log)
                   (User.id writer) (FoodLogCreate.food_item_id log)).
  assert ((create_food_log other log db).2
          = mkDB (users db) (food_items db) (food_logs db ++ [db_log])
              (users_id_seq db) (food_items_id_seq db) (food_logs_id_seq db + 1)) as ->.
  { unfold create_food_log, bind, query_first, add_food_log, load_food_item.
    by rewrite Hwriter. }
  cbv zeta. split; [|split].
  - unfold get_user_food_items, bind, query_first, query_all_order_by. simpl.
    by rewrite Huser.
  - intros log_date.
    rewrite (get_logs_for_date_found username log_date (mkDB _ _ _ _ _ _) user Huser).
    rewrite (get_logs_for_date_found username log_date db user Huser). simpl.
    rewrite filter_app, filter_cons_False by (by intros [? _]).
    by rewrite app_nil_r.
  - intros query_error backend_sum.
    unfold get_calendar_data, bind, query_first. cbn [users].
    rewrite Huser. destruct query_error; [done|].
    unfold calories_per_day. by rewrite (user_rows_snoc_other db db_log).
Qed.

Lemma create_food_log_of_another_user_witness :
  let db' := (create_food_log "bob" (FoodLogCreate.mk day "lunch" 4 1) two_users_db).2 in
  (get_user_food_items "ann" db').1 = (get_user_food_items "ann" two_users_db).1
  ∧ (∀ log_date,
       (get_logs_for_date "ann" log_date db').1
       = (get_logs_for_date "ann" log_date two_users_db).1)
  ∧ (∀ query_error backend_sum,
       (get_calendar_data "ann" query_error backend_sum db').1
       = (get_calendar_data "ann" query_error backend_sum two_users_db).1).
Proof.
  apply (create_food_log_of_another_user "ann" "bob" (FoodLogCreate.mk day "lunch" 4 1)
           two_users_db (User.mk 1 "ann" "pw") (User.mk 2 "bob" "hunter2")).
  - reflexivity.
  - reflexivity.
  - simpl. lia.
Defined.

(** ** Reachable stores *)

(** The store with Ann's two logs is produced by four requests. *)
Lemma reachable_wf_witness : wf logged_db.
Proof.
  apply (reachable_wf lower).
  apply (reachable_serve lower (CreateFoodLog "ann" (FoodLogCreate.mk day "lunch" 3 1))).
  - apply (reachable_serve lower
             (CreateFoodLog "ann" (FoodLogCreate.mk day "breakfast" 2 1))).
    + apply (reachable_serve lower
               (AnalyzeAndFindFood milk_request (inr milk_parsed) (inr milk_nutrition))).
      * apply (reachable_serve lower (Login ann)); [constructor|exact I].
      * exact I.
    + apply (bool_decide_unpack _). by vm_compute.
  - apply (bool_decide_unpack _). by vm_compute.
Defined.

(** ** Analysis composed with the other endpoints *)

Lemma analyze_answer_inv (str_lower : string → string) (request : FoodAnalysisRequest.t)
    (parsed_result : ParsedResult.t) (nutrition_reply : string + NutritionData.t)
    (db db' : DB) (response : Analysis.t) :
  analyze_and_find_food str_lower request (inr parsed_result) nutrition_reply db
    = (Return response, db') →
  ∃ user q,
    head (filter (λ u, User.username u = FoodAnalysisRequest.username request) (users db))
      = Some user
    ∧ py_float (default (PyFloat 1) (ParsedResult.quantity parsed_result)) = Return q.
Proof.
  intros Hrun. unfold analyze_and_find_food, bind, query_first, lift in Hrun.
  destruct (head _) as [user|]; [|discriminate].
  destruct (py_float _) as [q|e]; [|discriminate].
  by exists user, q.
Qed.

(** X15: an analysed item is listed.  Whenever an analysis answers, the
    listing of food items for the username of the request, in the store the
    analysis leaves, contains the item of the answer. *)
Theorem analyze_then_listing (str_lower : string → string)
    (request : FoodAnalysisRequest.t) (parsed_result : ParsedResult.t)
    (nutrition_reply : string + NutritionData.t) (db db' : DB)
    (response : Analysis.t) :
  analyze_and_find_food str_lower request (inr parsed_result) nutrition_reply db
    = (Return response, db') →
  ∃ items,
    get_user_food_items (FoodAnalysisRequest.username request) db' = (Return items, db')
    ∧ Analysis.item response ∈ items.
Proof.
  intros Hrun.
  destruct (analyze_answer_inv _ _ _ _ _ _ _ Hrun) as (user & q & Huser & Hq).
  rewrite (analyze_found _ _ _ _ _ _ _ Huser Hq) in Hrun. cbv zeta in Hrun.
  assert (users db' = users db
          ∧ Analysis.item response ∈ food_items db'
          ∧ FoodItem.user_id (Analysis.item response) = User.id user)
    as (Husers & Hin & Howner).
  { destruct (head (filter _ (food_items db))) as [existing_item|] eqn:Hexisting.
    - injection Hrun as <- <-. simpl.
      by apply head_filter_holds in Hexisting as [[Howner _] Hin].
    - destruct nutrition_reply as [e|nutrition_data]; [discriminate|].
      injection Hrun as <- <-. simpl. repeat split.
      apply elem_of_app. right. left. }
  eexists. unfold get_user_food_items, bind, query_first, query_all_order_by.
  rewrite Husers, Huser. split; [reflexivity|].
  rewrite merge_sort_Permutation. by apply list_elem_of_filter.
Qed.

Lemma analyze_then_listing_witness :
  ∃ items,
    get_user_food_items (FoodAnalysisRequest.username milk_request) milk_db
      = (Return items, milk_db)
    ∧ FoodItem.mk 1 "milk" (Some 5%float) (Some 3.5%float) (Some 5%float)
        (Some 1%float) (Some 0%float) "100ml" 1 ∈ items.
Proof.
  exact (analyze_then_listing lower milk_request milk_parsed (inr milk_nutrition)
           ann_db milk_db
           (Analysis.mk (FoodItem.mk 1 "milk" (Some 5%float) (Some 3.5%float)
                           (Some 5%float) (Some 1%float) (Some 0%float) "100ml" 1)
              5%float true)
           eq_refl).
Defined.

(** X16: logging what an analysis answered.  In a store whose item keys are
    unique and below the sequence, a log created for the username of the
    request with the identifier of the answered item is returned with
    exactly that item embedded, and the log has the owner of the item. *)
Theorem analyze_then_create_food_log (str_lower : string → string)
    (request : FoodAnalysisRequest.t) (parsed_result : ParsedResult.t)
    (nutrition_reply : string + NutritionData.t) (db db1 : DB)
    (response : Analysis.t) (log : FoodLogCreate.t) :
  NoDup (FoodItem.id <$> food_items db) →
  (∀ i, i ∈ food_items db → FoodItem.id i < food_items_id_seq db) →
  analyze_and_find_food str_lower request (inr parsed_result) nutrition_reply db
    = (Return response, db1) →
  FoodLogCreate.food_item_id log = FoodItem.id (Analysis.item response) →
  ∃ db_log db2,
    create_food_log (FoodAnalysisRequest.username request) log db1
      = (Return (FoodLogORM.mk db_log (Some (Analysis.item response))), db2)
    ∧ FoodLog.food_item_id db_log = FoodItem.id (Analysis.item response)
    ∧ FoodLog.user_id db_log = FoodItem.user_id (Analysis.item response)
    ∧ food_logs db2 = food_logs db1 ++ [db_log].
Proof.
  intros Hkey Hseq Hrun Hid.
  destruct (analyze_answer_inv _ _ _ _ _ _ _ Hrun) as (user & q & Huser & Hq).
  rewrite (analyze_found _ _ _ _ _ _ _ Huser Hq) in Hrun. cbv zeta in Hrun.
  assert (users db1 = users db
          ∧ Analysis.item response ∈ food_items db1
          ∧ FoodItem.user_id (Analysis.item response) = User.id user
          ∧ NoDup (FoodItem.id <$> food_items db1))
    as (Husers & Hin & Howner & Hkey1).
  { destruct (head (filter _ (food_items db))) as [existing_item|] eqn:Hexisting.
    - injection Hrun as <- <-. simpl.
      by apply head_filter_holds in Hexisting as [[Howner _] Hin].
    - destruct nutrition_reply as [e|nutrition_data]; [discriminate|].
      injection Hrun as <- <-. simpl. repeat split.
      + apply elem_of_app. right. left.
      + by apply NoDup_fmap_snoc_seq. }
  do 2 eexists.
  unfold create_food_log, bind, query_first, add_food_log, load_food_item.
  rewrite Husers, Huser. simpl. unfold bind, query_first, ret. simpl.
  rewrite Hid, (filter_key FoodItem.id _ _ Hkey1 Hin). simpl.
  by rewrite Howner.
Qed.

Lemma analyze_then_create_food_log_witness :
  ∃ db_log db2,
    create_food_log (FoodAnalysisRequest.username milk_request)
      (FoodLogCreate.mk day "breakfast" 5 1) milk_db
      = (Return (FoodLogORM.mk db_log
                   (Some (FoodItem.mk 1 "milk" (Some 5%float) (Some 3.5%float)
                            (Some 5%float) (Some 1%float) (Some 0%float) "100ml" 1))),
         db2)
    ∧ FoodLog.food_item_id db_log = 1
    ∧ FoodLog.user_id db_log = 1
    ∧ food_logs db2 = food_logs milk_db ++ [db_log].
Proof.
  apply (analyze_then_create_food_log lower milk_request milk_parsed
           (inr milk_nutrition) ann_db milk_db
           (Analysis.mk (FoodItem.mk 1 "milk" (Some 5%float) (Some 3.5%float)
                           (Some 5%float) (Some 1%float) (Some 0%float) "100ml" 1)
              5%float true)
           (FoodLogCreate.mk day "breakfast" 5 1)).
  - apply NoDup_nil_2.
  - intros i Hi. by apply elem_of_nil in Hi.
  - reflexivity.
  - reflexivity.
Defined.

(** X17: an analysis by one user leaves the listing of food items of every
    user with another identifier as it was, whatever the replies and the
    outcome. *)
Theorem analyze_of_another_user (str_lower : string → string) (username : string)
    (request : FoodAnalysisRequest.t) (parsing_reply : string + ParsedResult.t)
    (nutrition_reply : string + NutritionData.t) (db : DB) (user : User.t) :
  head (filter (λ u, User.username u = username) (users db)) = Some user →
  (∀ writer,
      head (filter (λ u, User.username u = FoodAnalysisRequest.username request)
              (users db)) = Some writer →
      User.id writer ≠ User.id user) →
  (get_user_food_items username
     (analyze_and_find_food str_lower request parsing_reply nutrition_reply db).2).1
  = (get_user_food_items username db).1.
Proof.
  intros Huser Hother.
  unfold analyze_and_find_food, bind at 1, query_first at 1.
  destruct (head (filter (λ u, User.username u = FoodAnalysisRequest.username request)
                    (users db))) as [writer|] eqn:Hwriter; [|done].
  specialize (Hother writer eq_refl).
  destruct parsing_reply as [e|parsed_result]; [done|].
  unfold bind, lift, query_first.
  destruct (py_float _) as [q|e]; [|done].
  destruct (head (filter _ (food_items db))) as [existing_item|]; [done|].
  destruct nutrition_reply as [e|nutrition_data]; [done|].
  unfold get_user_food_items, bind, query_first, query_all_order_by. simpl.
  rewrite Huser. simpl. rewrite filter_app, filter_cons_False by done.
  by rewrite app_nil_r.
Qed.

Lemma analyze_of_another_user_witness :
  (get_user_food_items "ann"
     (analyze_and_find_food lower (FoodAnalysisRequest.mk "an apple" "bob")
        (inr (ParsedResult.mk None None (Some "apple")))
        (inr (NutritionData.mk None None None None None None)) two_users_db).2).1
  = (get_user_food_items "ann" two_users_db).1.
Proof.
  apply (analyze_of_another_user lower "ann" (FoodAnalysisRequest.mk "an apple" "bob")
           _ _ two_users_db (User.mk 1 "ann" "pw")).
  - reflexivity.
  - intros writer [= <-]. simpl. lia.
Defined.
